(** * ClaimViz development server ([server.py])

    A shallow embedding of [server.py] together with the methods its
    handler inherits from CPython's [http.server] and the server loop of
    [socketserver] (the 3.11 sources), and the properties of the responses
    and of the life of the process stated for them.

    The embedding:
    - [Py], [posixpath]: the string and path functions the code relies on,
      characters being the code points below 256 (a request line is
      decoded as iso-8859-1);
    - [result], [M]: state passing with Python exceptions;
    - [Lib]: library functions that are only called, left abstract;
    - [FS]: the files the handler reads, a tree of readable or unreadable
      files and directories (no symbolic links, every directory can be
      traversed);
    - [BaseHTTPRequestHandler], [SimpleHTTPRequestHandler],
      [CORSRequestHandler]: the handler classes, a method of a base class
      taking [self.end_headers] as the instance resolves it;
    - [Main]: [HTTPServer], [serve_forever] and the module body of
      [server.py] as a process that reacts to connections and to an
      interrupt, and leaves a trace of what it prints, binds and replies;
    - [Posix], [Example]: one instance of the library and a small served
      directory, for the worked examples.

    Then the vocabulary of the properties, and the properties. *)

From Stdlib Require Import String Ascii List ZArith Bool Lia.
From Stdlib Require Import Numbers.DecimalString.

Set Warnings "-register-all".
Import ListNotations.

Local Open Scope string_scope.
Local Open Scope Z_scope.

(** ** Python string built-ins *)

Module Py.

(** [str(n)] / ["%d" % n] for an integer. *)
Definition str (n : Z) : string := NilZero.string_of_int (Z.to_int n).

Definition CR : ascii := ascii_of_nat 13.
Definition LF : ascii := ascii_of_nat 10.
Definition CRLF : string := String CR (String LF EmptyString).

(** [str.isspace] on the code points below 256 (a request line is decoded
    as iso-8859-1, one character per byte). *)
Definition isspace (c : ascii) : bool :=
  let n := nat_of_ascii c in
  ((9 <=? n) && (n <=? 13) || (28 <=? n) && (n <=? 32)
   || (n =? 133) || (n =? 160))%nat.

(** [str.lower] on the code points below 256. *)
Definition lower_char (c : ascii) : ascii :=
  let n := nat_of_ascii c in
  if ((65 <=? n) && (n <=? 90)
      || (192 <=? n) && (n <=? 222) && negb (n =? 215))%nat
  then ascii_of_nat (n + 32) else c.

Fixpoint lower (s : string) : string :=
  match s with
  | EmptyString => EmptyString
  | String c s' => String (lower_char c) (lower s')
  end.

Definition startswith (s p : string) : bool := String.prefix p s.

Fixpoint rev_string (s : string) : string :=
  match s with
  | EmptyString => EmptyString
  | String c s' => rev_string s' ++ String c EmptyString
  end.

Definition endswith (s p : string) : bool :=
  String.prefix (rev_string p) (rev_string s).

(** [s.lstrip(chars)] with the characters to drop given as a predicate. *)
Fixpoint lstrip_by (f : ascii -> bool) (s : string) : string :=
  match s with
  | EmptyString => EmptyString
  | String c s' => if f c then lstrip_by f s' else s
  end.

Definition rstrip_by (f : ascii -> bool) (s : string) : string :=
  rev_string (lstrip_by f (rev_string s)).

(** [s.rstrip()] *)
Definition rstrip (s : string) : string := rstrip_by isspace s.

(** [s.split(sep)] for a one-character separator: every field, empty ones
    included. *)
Fixpoint split_char (sep : ascii) (s : string) : list string :=
  match s with
  | EmptyString => [EmptyString]
  | String c s' =>
      if Ascii.eqb c sep then EmptyString :: split_char sep s'
      else match split_char sep s' with
           | [] => [String c EmptyString]
           | w :: ws => String c w :: ws
           end
  end.

(** [s.split(sep, 1)]: at most one cut, at the first separator. *)
Fixpoint split1 (sep : ascii) (s : string) : list string :=
  match s with
  | EmptyString => [EmptyString]
  | String c s' =>
      if Ascii.eqb c sep then [EmptyString; s']
      else match split1 sep s' with
           | [] => [String c EmptyString]
           | w :: ws => String c w :: ws
           end
  end.

(** [s.split()]: the maximal runs of non-blank characters. *)
Fixpoint split_ws_aux (cur : string) (s : string) : list string :=
  match s with
  | EmptyString => if String.eqb cur "" then [] else [rev_string cur]
  | String c s' =>
      if isspace c
      then (if String.eqb cur "" then split_ws_aux "" s'
            else rev_string cur :: split_ws_aux "" s')
      else split_ws_aux (String c cur) s'
  end.

Definition split (s : string) : list string := split_ws_aux "" s.

(** [sep.join(l)] *)
Definition join (sep : string) (l : list string) : string :=
  String.concat sep l.

(** [x in s] for a character. *)
Fixpoint contains_char (c : ascii) (s : string) : bool :=
  match s with
  | EmptyString => false
  | String d s' => Ascii.eqb c d || contains_char c s'
  end.

(** [a >= b] on strings. *)
Definition str_ge (a b : string) : bool := String.leb b a.

End Py.

(** ** Exceptions and state *)

Inductive exn : Type :=
| KeyboardInterrupt
| SystemExit (code : Z)
| OSError (strerror : string)
| AttributeError (name : string).

(** The three ways a call can end: it returns, it raises, or it never
    comes back because it is waiting for input that does not arrive. *)
Inductive result (S A : Type) : Type :=
| Return (a : A) (s : S)
| Raise (e : exn) (s : S)
| Waiting (s : S).

Arguments Return {S A} a s.
Arguments Raise {S A} e s.
Arguments Waiting {S A} s.

Definition M (S A : Type) : Type := S -> result S A.

Definition ret {S A} (a : A) : M S A := fun s => Return a s.

Definition bind {S A B} (m : M S A) (k : A -> M S B) : M S B :=
  fun s => match m s with
           | Return a s' => k a s'
           | Raise e s' => Raise e s'
           | Waiting s' => Waiting s'
           end.

Definition raise {S A} (e : exn) : M S A := fun s => Raise e s.

Definition gets {S A} (f : S -> A) : M S A := fun s => Return (f s) s.

Definition modify {S} (f : S -> S) : M S unit := fun s => Return tt (f s).

(** [try: body / except <those matched by handler>: ...]; [handler e = None]
    means no [except] clause matches and [e] propagates. *)
Definition try_except {S A} (body : M S A) (handler : exn -> option (M S A))
  : M S A :=
  fun s => match body s with
           | Raise e s' => match handler e with
                           | Some h => h s'
                           | None => Raise e s'
                           end
           | r => r
           end.

Declare Scope py_scope.
Delimit Scope py_scope with py.
Notation "x <- m ;; k" := (bind m (fun x => k))
  (at level 61, m at next level, right associativity) : py_scope.
Notation "m ;; k" := (bind m (fun _ => k))
  (at level 61, right associativity) : py_scope.
Local Open Scope py_scope.

(** [when c m]: [if c: m]. *)
Definition when {S} (c : bool) (m : M S unit) : M S unit :=
  if c then m else ret tt.

(** ** Library functions that are called but not modelled

    Each field stands for one function of the Python library whose result
    the handler only passes on.  Every theorem below holds for any choice
    of them. *)

Class Lib : Type := {
  (** [int(s)]; [None] is [ValueError] *)
  int : string -> option Z;
  (** [repr(s)], the ["%r"] conversion *)
  repr : string -> string;
  (** [urllib.parse.unquote(s, errors='surrogatepass')], with the fallback
      [translate_path] and [list_directory] take on [UnicodeDecodeError] *)
  unquote : string -> string;
  (** [urllib.parse.quote(s, errors='surrogatepass')] *)
  quote : string -> string;
  (** [urllib.parse.urlsplit(url)]: scheme, netloc, path, query, fragment *)
  urlsplit : string -> string * string * string * string * string;
  (** [urllib.parse.urlunsplit(parts)] *)
  urlunsplit : string * string * string * string * string -> string;
  (** [SimpleHTTPRequestHandler.guess_type(path)] *)
  guess_type : string -> string;
  (** [email.utils.formatdate(timestamp, usegmt=True)] *)
  formatdate : Z -> string;
  (** [email.utils.parsedate_to_datetime(s)] followed by the time zone test
      of [send_head]: the instant in seconds when the date parses and
      carries no zone or UTC, [None] otherwise *)
  parsedate_utc : string -> option Z;
  (** [sys_version], ["Python/" + sys.version.split()[0]] *)
  sys_version : string;
  (** [sys.getfilesystemencoding()] *)
  getfilesystemencoding : string;
  (** [s.encode(sys.getfilesystemencoding(), 'surrogateescape')] *)
  encode_fs : string -> string;
  (** [s.encode('UTF-8', 'replace')] *)
  encode_utf8 : string -> string
}.

(** ** The file system the handler reads *)

Module FS.

Inductive node : Type :=
| File (readable : bool) (st_mtime : Z) (data : string)
| Dir (readable : bool) (entries : list (string * node)).

Fixpoint find_entry (name : string) (es : list (string * node))
  : option node :=
  match es with
  | [] => None
  | (n, x) :: es' => if String.eqb n name then Some x else find_entry name es'
  end.

(** Path resolution, one component at a time; [stack] holds the
    directories above [cur].  An empty component or ["."] stays in place
    and, like any other component, needs [cur] to be a directory. *)
Fixpoint walk (stack : list node) (cur : node) (comps : list string)
  : option node :=
  match comps with
  | [] => Some cur
  | c :: rest =>
      match cur with
      | File _ _ _ => None
      | Dir _ es =>
          if String.eqb c "" || String.eqb c "." then walk stack cur rest
          else if String.eqb c ".." then
            match stack with
            | [] => walk [] cur rest
            | p :: st => walk st p rest
            end
          else match find_entry c es with
               | None => None
               | Some n => walk (cur :: stack) n rest
               end
      end
  end.

(** A mounted tree and the working directory of the process
    ([os.getcwd()], an absolute path). *)
Record t : Type := { root : node; getcwd : string }.

Definition stat (w : t) (p : string) : option node :=
  if String.eqb p "" then None
  else if Py.startswith p "/" then walk [] (root w) (Py.split_char "/" p)
  else walk [] (root w) (Py.split_char "/" (getcwd w ++ "/" ++ p)).

(** [os.path.isdir], [os.path.isfile] *)
Definition isdir (w : t) (p : string) : bool :=
  match stat w p with Some (Dir _ _) => true | _ => false end.

Definition isfile (w : t) (p : string) : bool :=
  match stat w p with Some (File _ _ _) => true | _ => false end.

(** [open(p, 'rb')] followed by [os.fstat]: the modification time and the
    contents, or [OSError]. *)
Definition open_rb (w : t) (p : string) : (Z * string) + exn :=
  match stat w p with
  | Some (File true mt d) => inl (mt, d)
  | Some (File false _ _) => inr (OSError "Permission denied")
  | Some (Dir _ _) => inr (OSError "Is a directory")
  | None => inr (OSError "No such file or directory")
  end.

(** [os.listdir(p)] *)
Definition listdir (w : t) (p : string) : list string + exn :=
  match stat w p with
  | Some (Dir true es) => inl (map fst es)
  | Some (Dir false _) => inr (OSError "Permission denied")
  | Some (File _ _ _) => inr (OSError "Not a directory")
  | None => inr (OSError "No such file or directory")
  end.

End FS.

(** ** [posixpath] *)

Module posixpath.

(** [posixpath.join(a, b)] *)
Definition join (a b : string) : string :=
  if Py.startswith b "/" then b
  else if String.eqb a "" || Py.endswith a "/" then a ++ b
  else a ++ "/" ++ b.

(** [p[:p.rfind('/') + 1]]: the part of [p] up to its last slash. *)
Fixpoint head_of (p : string) : string :=
  match p with
  | EmptyString => EmptyString
  | String c p' =>
      let r := head_of p' in
      if negb (String.eqb r "") then String c r
      else if Ascii.eqb c "/" then String c EmptyString
      else EmptyString
  end.

(** [posixpath.dirname(p)] *)
Definition dirname (p : string) : string :=
  let head := head_of p in
  if negb (String.eqb head "")
     && negb (String.eqb (Py.lstrip_by (Ascii.eqb "/") head) "")
  then Py.rstrip_by (Ascii.eqb "/") head else head.

(** The loop of [posixpath.normpath] over the components. *)
Fixpoint normpath_comps (initial_slashes : bool) (new_comps : list string)
  (comps : list string) : list string :=
  match comps with
  | [] => new_comps
  | comp :: rest =>
      if String.eqb comp "" || String.eqb comp "."
      then normpath_comps initial_slashes new_comps rest
      else if negb (String.eqb comp "..")
              || (negb initial_slashes
                  && match new_comps with [] => true | _ => false end)
              || (match new_comps with
                  | [] => false
                  | _ => String.eqb (last new_comps "") ".."
                  end)
      then normpath_comps initial_slashes (new_comps ++ [comp]) rest
      else normpath_comps initial_slashes (removelast new_comps) rest
  end.

(** [posixpath.normpath(path)] *)
Definition normpath (path : string) : string :=
  if String.eqb path "" then "."
  else
    let initial_slashes :=
      if Py.startswith path "/" then
        if Py.startswith path "//" && negb (Py.startswith path "///")
        then 2%nat else 1%nat
      else 0%nat in
    let comps := Py.split_char "/" path in
    let comps :=
      normpath_comps (negb (Nat.eqb initial_slashes 0)) [] comps in
    let path := Py.join "/" comps in
    let path :=
      match initial_slashes with
      | 0%nat => path
      | 1%nat => "/" ++ path
      | _ => "//" ++ path
      end in
    if String.eqb path "" then "." else path.

End posixpath.

(** ** The request handler and what surrounds it *)

(** What [http.client.parse_headers] makes of the header block. *)
Inductive header_block : Type :=
| Headers (hs : list (string * string))
| LineTooLong (err : string)
| HTTPException (err : string).

(** One request as it arrives on a connection: the request line as read
    by [rfile.readline], and the header block that follows it. *)
Record request : Type := {
  raw_requestline : string;
  header_lines : header_block
}.

(** A line of the access log ([log_message] writes it to [sys.stderr]). *)
Inductive log_entry : Type :=
| LogRequest (requestline : string) (code : Z)
| LogError (code : Z) (message : string).

(** The handler instance ([self]) with the objects it reaches: the two
    ends of the connection, the log, the file system and the clock. *)
Record Handler : Type := mkHandler {
  rfile : list request;
  wfile : string;
  stderr : list log_entry;
  files : FS.t;
  time : Z;
  directory : string;
  requestline : string;
  request_version : string;
  command : option string;
  path : string;
  headers : list (string * string);
  close_connection : bool;
  _headers_buffer : option (list string)
}.

Definition set_rfile (v : list request) (h : Handler) : Handler :=
  mkHandler v (wfile h) (stderr h) (files h) (time h) (directory h)
    (requestline h) (request_version h) (command h) (path h) (headers h)
    (close_connection h) (_headers_buffer h).

Definition set_wfile (v : string) (h : Handler) : Handler :=
  mkHandler (rfile h) v (stderr h) (files h) (time h) (directory h)
    (requestline h) (request_version h) (command h) (path h) (headers h)
    (close_connection h) (_headers_buffer h).

Definition set_stderr (v : list log_entry) (h : Handler) : Handler :=
  mkHandler (rfile h) (wfile h) v (files h) (time h) (directory h)
    (requestline h) (request_version h) (command h) (path h) (headers h)
    (close_connection h) (_headers_buffer h).

Definition set_requestline (v : string) (h : Handler) : Handler :=
  mkHandler (rfile h) (wfile h) (stderr h) (files h) (time h) (directory h)
    v (request_version h) (command h) (path h) (headers h)
    (close_connection h) (_headers_buffer h).

Definition set_request_version (v : string) (h : Handler) : Handler :=
  mkHandler (rfile h) (wfile h) (stderr h) (files h) (time h) (directory h)
    (requestline h) v (command h) (path h) (headers h)
    (close_connection h) (_headers_buffer h).

Definition set_command (v : option string) (h : Handler) : Handler :=
  mkHandler (rfile h) (wfile h) (stderr h) (files h) (time h) (directory h)
    (requestline h) (request_version h) v (path h) (headers h)
    (close_connection h) (_headers_buffer h).

Definition set_path (v : string) (h : Handler) : Handler :=
  mkHandler (rfile h) (wfile h) (stderr h) (files h) (time h) (directory h)
    (requestline h) (request_version h) (command h) v (headers h)
    (close_connection h) (_headers_buffer h).

Definition set_headers (v : list (string * string)) (h : Handler) : Handler :=
  mkHandler (rfile h) (wfile h) (stderr h) (files h) (time h) (directory h)
    (requestline h) (request_version h) (command h) (path h) v
    (close_connection h) (_headers_buffer h).

Definition set_close_connection (v : bool) (h : Handler) : Handler :=
  mkHandler (rfile h) (wfile h) (stderr h) (files h) (time h) (directory h)
    (requestline h) (request_version h) (command h) (path h) (headers h)
    v (_headers_buffer h).

Definition set_headers_buffer (v : option (list string)) (h : Handler)
  : Handler :=
  mkHandler (rfile h) (wfile h) (stderr h) (files h) (time h) (directory h)
    (requestline h) (request_version h) (command h) (path h) (headers h)
    (close_connection h) v.

(** [self.path], for where a local variable is called [path] too. *)
Definition self_path (h : Handler) : string := path h.

(** [self.wfile.write(data)] *)
Definition write (data : string) : M Handler unit :=
  modify (fun h => set_wfile (wfile h ++ data) h).

(** [self.headers.get(name, "")] and [name in self.headers]: header names
    compare without regard to case. *)
Fixpoint headers_get (name : string) (hs : list (string * string))
  : option string :=
  match hs with
  | [] => None
  | (k, v) :: hs' =>
      if String.eqb (Py.lower k) (Py.lower name) then Some v
      else headers_get name hs'
  end.

Definition headers_get_default (name : string) (hs : list (string * string))
  : string :=
  match headers_get name hs with Some v => v | None => "" end.

Definition headers_has (name : string) (hs : list (string * string)) : bool :=
  match headers_get name hs with Some _ => true | None => false end.

(** ** [http.server.BaseHTTPRequestHandler] *)

Module BaseHTTPRequestHandler.

Definition DQ : string := String (ascii_of_nat 34) EmptyString.
Definition NL : string := String Py.LF EmptyString.

(** [html.escape(s, quote=False)] *)
Fixpoint html_escape (s : string) : string :=
  match s with
  | EmptyString => EmptyString
  | String c s' =>
      (if Ascii.eqb c "&" then "&amp;"
       else if Ascii.eqb c "<" then "&lt;"
       else if Ascii.eqb c ">" then "&gt;"
       else String c EmptyString) ++ html_escape s'
  end.

(** [responses]: phrase and description of every [http.HTTPStatus]. *)
Definition responses (code : Z) : option (string * string) :=
  match code with
  | 100 => Some ("Continue", "Request received, please continue")
  | 101 => Some ("Switching Protocols",
      "Switching to new protocol; obey Upgrade header")
  | 102 => Some ("Processing", "")
  | 103 => Some ("Early Hints", "")
  | 200 => Some ("OK", "Request fulfilled, document follows")
  | 201 => Some ("Created", "Document created, URL follows")
  | 202 => Some ("Accepted",
      "Request accepted, processing continues off-line")
  | 203 => Some ("Non-Authoritative Information",
      "Request fulfilled from cache")
  | 204 => Some ("No Content", "Request fulfilled, nothing follows")
  | 205 => Some ("Reset Content", "Clear input form for further input")
  | 206 => Some ("Partial Content", "Partial content follows")
  | 207 => Some ("Multi-Status", "")
  | 208 => Some ("Already Reported", "")
  | 226 => Some ("IM Used", "")
  | 300 => Some ("Multiple Choices",
      "Object has several resources -- see URI list")
  | 301 => Some ("Moved Permanently",
      "Object moved permanently -- see URI list")
  | 302 => Some ("Found", "Object moved temporarily -- see URI list")
  | 303 => Some ("See Other", "Object moved -- see Method and URL list")
  | 304 => Some ("Not Modified", "Document has not changed since given time")
  | 305 => Some ("Use Proxy",
      "You must use proxy specified in Location to access this resource")
  | 307 => Some ("Temporary Redirect",
      "Object moved temporarily -- see URI list")
  | 308 => Some ("Permanent Redirect",
      "Object moved permanently -- see URI list")
  | 400 => Some ("Bad Request", "Bad request syntax or unsupported method")
  | 401 => Some ("Unauthorized", "No permission -- see authorization schemes")
  | 402 => Some ("Payment Required", "No payment -- see charging schemes")
  | 403 => Some ("Forbidden",
      "Request forbidden -- authorization will not help")
  | 404 => Some ("Not Found", "Nothing matches the given URI")
  | 405 => Some ("Method Not Allowed",
      "Specified method is invalid for this resource")
  | 406 => Some ("Not Acceptable", "URI not available in preferred format")
  | 407 => Some ("Proxy Authentication Required",
      "You must authenticate with this proxy before proceeding")
  | 408 => Some ("Request Timeout", "Request timed out; try again later")
  | 409 => Some ("Conflict", "Request conflict")
  | 410 => Some ("Gone",
      "URI no longer exists and has been permanently removed")
  | 411 => Some ("Length Required", "Client must specify Content-Length")
  | 412 => Some ("Precondition Failed", "Precondition in headers is false")
  | 413 => Some ("Request Entity Too Large", "Entity is too large")
  | 414 => Some ("Request-URI Too Long", "URI is too long")
  | 415 => Some ("Unsupported Media Type",
      "Entity body in unsupported format")
  | 416 => Some ("Requested Range Not Satisfiable",
      "Cannot satisfy request range")
  | 417 => Some ("Expectation Failed",
      "Expect condition could not be satisfied")
  | 418 => Some ("I'm a Teapot",
      "Server refuses to brew coffee because it is a teapot.")
  | 421 => Some ("Misdirected Request",
      "Server is not able to produce a response")
  | 422 => Some ("Unprocessable Entity", "")
  | 423 => Some ("Locked", "")
  | 424 => Some ("Failed Dependency", "")
  | 425 => Some ("Too Early", "")
  | 426 => Some ("Upgrade Required", "")
  | 428 => Some ("Precondition Required",
      "The origin server requires the request to be conditional")
  | 429 => Some ("Too Many Requests",
      "The user has sent too many requests in a given amount of"
      ++ " time (" ++ DQ ++ "rate limiting" ++ DQ ++ ")")
  | 431 => Some ("Request Header Fields Too Large",
      "The server is unwilling to process the request because its"
      ++ " header fields are too large")
  | 451 => Some ("Unavailable For Legal Reasons",
      "The server is denying access to the resource as a"
      ++ " consequence of a legal demand")
  | 500 => Some ("Internal Server Error", "Server got itself in trouble")
  | 501 => Some ("Not Implemented", "Server does not support this operation")
  | 502 => Some ("Bad Gateway", "Invalid responses from another server/proxy")
  | 503 => Some ("Service Unavailable",
      "The server cannot process the request due to a high load")
  | 504 => Some ("Gateway Timeout",
      "The gateway server did not receive a timely response")
  | 505 => Some ("HTTP Version Not Supported", "Cannot fulfill request")
  | 506 => Some ("Variant Also Negotiates", "")
  | 507 => Some ("Insufficient Storage", "")
  | 508 => Some ("Loop Detected", "")
  | 510 => Some ("Not Extended", "")
  | 511 => Some ("Network Authentication Required",
      "The client needs to authenticate to gain network access")
  | _ => None
  end.

(** Class attributes, as [SimpleHTTPRequestHandler] resolves them (the
    subclass of [server.py] sets none of them). *)
Definition protocol_version : string := "HTTP/1.0".
Definition default_request_version : string := "HTTP/0.9".
Definition server_version : string := "SimpleHTTP/0.6".
Definition error_content_type : string := "text/html;charset=utf-8".

(** [error_message_format % {'code': code, 'message': message,
    'explain': explain}] *)
Definition error_message_format (code : Z) (message explain : string)
  : string :=
  Py.join NL
    [ "<!DOCTYPE HTML>";
      "<html lang=" ++ DQ ++ "en" ++ DQ ++ ">";
      "    <head>";
      "        <meta charset=" ++ DQ ++ "utf-8" ++ DQ ++ ">";
      "        <title>Error response</title>";
      "    </head>";
      "    <body>";
      "        <h1>Error response</h1>";
      "        <p>Error code: " ++ Py.str code ++ "</p>";
      "        <p>Message: " ++ message ++ ".</p>";
      "        <p>Error code explanation: " ++ Py.str code ++ " - "
        ++ explain ++ ".</p>";
      "    </body>";
      "</html>";
      "" ].

Section Methods.

Context {L : Lib}.

(** [self.end_headers] and [getattr(self, 'do_' + command)] as the
    instance resolves them: a subclass may override the first and define
    the second. *)
Variable self_end_headers : M Handler unit.
Variable self_do : string -> option (M Handler unit).

Definition buffer_append (line : string) (h : Handler) : Handler :=
  set_headers_buffer
    (Some (match _headers_buffer h with
           | None => []
           | Some l => l
           end ++ [line])%list) h.

Definition log_request (code : Z) : M Handler unit :=
  modify (fun h =>
            set_stderr (stderr h ++ [LogRequest (requestline h) code])%list h).

Definition log_error (code : Z) (message : string) : M Handler unit :=
  modify (fun h =>
            set_stderr (stderr h ++ [LogError code message])%list h).

Definition version_string : string := server_version ++ " " ++ sys_version.

(** [date_time_string(timestamp)]; [None] reads the clock. *)
Definition date_time_string (timestamp : option Z) : M Handler string :=
  match timestamp with
  | Some t => ret (formatdate t)
  | None => t <- gets time ;; ret (formatdate t)
  end.

Definition send_response_only (code : Z) (message : option string)
  : M Handler unit :=
  v <- gets request_version ;;
  when (negb (String.eqb v "HTTP/0.9"))
    (let message :=
       match message with
       | Some m => m
       | None => match responses code with
                 | Some (phrase, _) => phrase
                 | None => ""
                 end
       end in
     modify (buffer_append (protocol_version ++ " " ++ Py.str code ++ " "
                            ++ message ++ Py.CRLF))).

Definition send_header (keyword value : string) : M Handler unit :=
  v <- gets request_version ;;
  when (negb (String.eqb v "HTTP/0.9"))
    (modify (buffer_append (keyword ++ ": " ++ value ++ Py.CRLF))) ;;
  when (String.eqb (Py.lower keyword) "connection")
    (if String.eqb (Py.lower value) "close"
     then modify (set_close_connection true)
     else when (String.eqb (Py.lower value) "keep-alive")
            (modify (set_close_connection false))).

Definition flush_headers : M Handler unit :=
  b <- gets _headers_buffer ;;
  match b with
  | Some l => write (Py.join "" l) ;; modify (set_headers_buffer (Some []))
  | None => ret tt
  end.

Definition end_headers : M Handler unit :=
  v <- gets request_version ;;
  when (negb (String.eqb v "HTTP/0.9"))
    (b <- gets _headers_buffer ;;
     match b with
     | Some l =>
         modify (set_headers_buffer (Some (l ++ [Py.CRLF])%list)) ;;
         flush_headers
     | None => raise (AttributeError "_headers_buffer")
     end).

Definition send_response (code : Z) (message : option string)
  : M Handler unit :=
  log_request code ;;
  send_response_only code message ;;
  send_header "Server" version_string ;;
  d <- date_time_string None ;;
  send_header "Date" d.

Definition send_error (code : Z) (message explain : option string)
  : M Handler unit :=
  let '(shortmsg, longmsg) :=
    match responses code with
    | Some p => p
    | None => ("???", "???")
    end in
  let message := match message with Some m => m | None => shortmsg end in
  let explain := match explain with Some e => e | None => longmsg end in
  log_error code message ;;
  send_response code (Some message) ;;
  send_header "Connection" "close" ;;
  body <-
    (if (200 <=? code)
        && negb ((code =? 204) || (code =? 205) || (code =? 304))
     then
       let content :=
         error_message_format code (html_escape message)
           (html_escape explain) in
       let body := encode_utf8 content in
       send_header "Content-Type" error_content_type ;;
       send_header "Content-Length" (Py.str (Z.of_nat (String.length body))) ;;
       ret (Some body)
     else ret None) ;;
  self_end_headers ;;
  cmd <- gets command ;;
  match body with
  | Some b =>
      when (negb (match cmd with
                  | Some c => String.eqb c "HEAD"
                  | None => false
                  end)
            && negb (String.eqb b ""))
        (write b)
  | None => ret tt
  end.

Definition handle_expect_100 : M Handler bool :=
  send_response_only 100 None ;;
  self_end_headers ;;
  ret true.

(** The version test of [parse_request]: [None] where the code raises
    [ValueError]. *)
Definition parse_version (version : string) : option (string * (Z * Z)) :=
  if negb (Py.startswith version "HTTP/") then None
  else
    let base_version_number := nth 1 (Py.split1 "/" version) "" in
    match Py.split_char "." base_version_number with
    | [a; b] =>
        match int a with
        | Some x => match int b with
                    | Some y => Some (base_version_number, (x, y))
                    | None => None
                    end
        | None => None
        end
    | _ => None
    end.

(** [a >= b] on pairs of integers. *)
Definition version_ge (a b : Z * Z) : bool :=
  (fst b <? fst a) || ((fst a =? fst b) && (snd b <=? snd a)).

Definition is_crlf (c : ascii) : bool :=
  Ascii.eqb c Py.CR || Ascii.eqb c Py.LF.

(** The second half of [parse_request], from the header block on. *)
Definition parse_request_headers (r : request) : M Handler bool :=
  match header_lines r with
  | LineTooLong err =>
      send_error 431 (Some "Line too long") (Some err) ;; ret false
  | HTTPException err =>
      send_error 431 (Some "Too many headers") (Some err) ;; ret false
  | Headers hs =>
      modify (set_headers hs) ;;
      let conntype := headers_get_default "Connection" hs in
      (if String.eqb (Py.lower conntype) "close"
       then modify (set_close_connection true)
       else when (String.eqb (Py.lower conntype) "keep-alive"
                  && Py.str_ge protocol_version "HTTP/1.1")
              (modify (set_close_connection false))) ;;
      let expect := headers_get_default "Expect" hs in
      v <- gets request_version ;;
      if String.eqb (Py.lower expect) "100-continue"
         && Py.str_ge protocol_version "HTTP/1.1"
         && Py.str_ge v "HTTP/1.1"
      then (ok <- handle_expect_100 ;;
            if negb ok then ret false else ret true)
      else ret true
  end.

(** The middle of [parse_request]: command and path, once the version is
    settled. *)
Definition parse_request_words (r : request) (requestline : string)
  (words : list string) : M Handler bool :=
  let n := List.length words in
  if negb ((2 <=? n)%nat && (n <=? 3)%nat) then
    send_error 400
      (Some ("Bad request syntax (" ++ repr requestline ++ ")")) None ;;
    ret false
  else
    let command := nth 0 words "" in
    let path := nth 1 words "" in
    ok <- (if (n =? 2)%nat then
             modify (set_close_connection true) ;;
             if negb (String.eqb command "GET") then
               send_error 400
                 (Some ("Bad HTTP/0.9 request type (" ++ repr command ++ ")"))
                 None ;;
               ret false
             else ret true
           else ret true) ;;
    if negb ok then ret false
    else
      modify (set_command (Some command)) ;;
      modify (set_path path) ;;
      when (Py.startswith path "//")
        (modify (set_path ("/" ++ Py.lstrip_by (Ascii.eqb "/") path))) ;;
      parse_request_headers r.

Definition parse_request (r : request) : M Handler bool :=
  modify (set_command None) ;;
  modify (set_request_version default_request_version) ;;
  modify (set_close_connection true) ;;
  let requestline := Py.rstrip_by is_crlf (raw_requestline r) in
  modify (set_requestline requestline) ;;
  let words := Py.split requestline in
  if (List.length words =? 0)%nat then ret false
  else if (3 <=? List.length words)%nat then
    let version := last words "" in
    match parse_version version with
    | None =>
        send_error 400
          (Some ("Bad request version (" ++ repr version ++ ")")) None ;;
        ret false
    | Some (base_version_number, version_number) =>
        when (version_ge version_number (1, 1)
              && Py.str_ge protocol_version "HTTP/1.1")
          (modify (set_close_connection false)) ;;
        if version_ge version_number (2, 0) then
          send_error 505
            (Some ("Invalid HTTP version (" ++ base_version_number ++ ")"))
            None ;;
          ret false
        else
          modify (set_request_version version) ;;
          parse_request_words r requestline words
    end
  else parse_request_words r requestline words.

(** [self.rfile.readline(65537)]: the next request line, nothing at the
    end of the input. *)
Definition readline : M Handler (option request) :=
  rs <- gets rfile ;;
  match rs with
  | [] => ret None
  | r :: rs' => modify (set_rfile rs') ;; ret (Some r)
  end.

Definition handle_one_request : M Handler unit :=
  r <- readline ;;
  match r with
  | None => modify (set_close_connection true)
  | Some r =>
      if 65536 <? Z.of_nat (String.length (raw_requestline r)) then
        modify (set_requestline "") ;;
        modify (set_request_version "") ;;
        modify (set_command (Some "")) ;;
        send_error 414 None None
      else if String.eqb (raw_requestline r) "" then
        modify (set_close_connection true)
      else
        ok <- parse_request r ;;
        if negb ok then ret tt
        else
          cmd <- gets command ;;
          let cmd := match cmd with Some c => c | None => "" end in
          match self_do cmd with
          | None =>
              send_error 501
                (Some ("Unsupported method (" ++ repr cmd ++ ")")) None
          | Some method => method
          end
  end.

(** [handle]: one request, and further ones while the connection is kept
    open.  [n] bounds the number of requests by what the connection
    holds. *)
Fixpoint handle_loop (n : nat) : M Handler unit :=
  match n with
  | O => ret tt
  | S n' =>
      c <- gets close_connection ;;
      if c then ret tt else handle_one_request ;; handle_loop n'
  end.

Definition handle : M Handler unit :=
  modify (set_close_connection true) ;;
  n <- gets (fun h => List.length (rfile h)) ;;
  handle_one_request ;;
  handle_loop n.

End Methods.

End BaseHTTPRequestHandler.

(** ** [http.server.SimpleHTTPRequestHandler] *)

Module SimpleHTTPRequestHandler.

Import BaseHTTPRequestHandler.

(** [list.sort(key=lambda a: a.lower())]: a stable sort on the lowered
    names. *)
Fixpoint insert_sorted (x : string) (l : list string) : list string :=
  match l with
  | [] => [x]
  | y :: l' =>
      if String.ltb (Py.lower x) (Py.lower y) then x :: l
      else y :: insert_sorted x l'
  end.

Definition sort_lower (l : list string) : list string :=
  fold_left (fun acc x => insert_sorted x acc) l [].

Section Methods.

Context {L : Lib}.
Variable self_end_headers : M Handler unit.

Abbreviation send_error := (send_error self_end_headers).

(** The test of the loop of [translate_path]: a component that is not a
    simple file or directory name is left out. *)
Definition ignored (word : string) : bool :=
  negb (String.eqb (posixpath.dirname word) "")
  || String.eqb word "." || String.eqb word "..".

Definition translate_path (directory path : string) : string :=
  let path := nth 0 (Py.split1 "?" path) "" in
  let path := nth 0 (Py.split1 "#" path) "" in
  let trailing_slash := Py.endswith (Py.rstrip path) "/" in
  let path := unquote path in
  let path := posixpath.normpath path in
  let words := Py.split_char "/" path in
  let words := filter (fun w => negb (String.eqb w "")) words in
  let path :=
    fold_left (fun path word =>
                 if ignored word then path else posixpath.join path word)
      words directory in
  if trailing_slash then path ++ "/" else path.

(** One [<li>] of the listing.  The file system of the model has no
    symbolic links, so [os.path.islink] is false. *)
Definition list_item (w : FS.t) (path name : string) : string :=
  let fullname := posixpath.join path name in
  let displayname := if FS.isdir w fullname then name ++ "/" else name in
  let linkname := displayname in
  "<li><a href=" ++ DQ ++ quote linkname ++ DQ ++ ">"
    ++ html_escape displayname ++ "</a></li>".

(** The page [list_directory] builds for the directory [path] holding
    [names], requested as [self_path]. *)
Definition listing (w : FS.t) (self_path path : string)
  (names : list string) : string :=
  let names := sort_lower names in
  let displaypath := html_escape (unquote self_path) in
  let enc := getfilesystemencoding in
  let title := "Directory listing for " ++ displaypath in
  let head :=
    [ "<!DOCTYPE HTML>";
      "<html lang=" ++ DQ ++ "en" ++ DQ ++ ">";
      "<head>";
      "<meta charset=" ++ DQ ++ enc ++ DQ ++ ">";
      "<title>" ++ title ++ "</title>" ++ NL ++ "</head>";
      "<body>" ++ NL ++ "<h1>" ++ title ++ "</h1>";
      "<hr>" ++ NL ++ "<ul>" ] in
  let foot :=
    "</ul>" ++ NL ++ "<hr>" ++ NL ++ "</body>" ++ NL ++ "</html>" ++ NL in
  let r := (head ++ map (list_item w path) names ++ [foot])%list in
  encode_fs (Py.join NL r).

Definition list_directory (path : string) : M Handler (option string) :=
  w <- gets files ;;
  match FS.listdir w path with
  | inr _ =>
      send_error 404 (Some "No permission to list directory") None ;;
      ret None
  | inl names =>
      p <- gets self_path ;;
      let encoded := listing w p path names in
      send_response 200 None ;;
      send_header "Content-type"
        ("text/html; charset=" ++ getfilesystemencoding) ;;
      send_header "Content-Length"
        (Py.str (Z.of_nat (String.length encoded))) ;;
      self_end_headers ;;
      ret (Some encoded)
  end.

(** The test of [send_head] on [If-Modified-Since]. *)
Definition not_modified (hs : list (string * string)) (st_mtime : Z) : bool :=
  if headers_has "If-Modified-Since" hs
     && negb (headers_has "If-None-Match" hs)
  then match parsedate_utc (headers_get_default "If-Modified-Since" hs) with
       | Some ims => st_mtime <=? ims
       | None => false
       end
  else false.

(** [send_head] from [ctype = self.guess_type(path)] on. *)
Definition send_head_file (path : string) : M Handler (option string) :=
  let ctype := guess_type path in
  if Py.endswith path "/" then
    send_error 404 (Some "File not found") None ;; ret None
  else
    w <- gets files ;;
    match FS.open_rb w path with
    | inr _ => send_error 404 (Some "File not found") None ;; ret None
    | inl (st_mtime, data) =>
        hs <- gets headers ;;
        if not_modified hs st_mtime then
          send_response 304 None ;;
          self_end_headers ;;
          ret None
        else
          send_response 200 None ;;
          send_header "Content-type" ctype ;;
          send_header "Content-Length"
            (Py.str (Z.of_nat (String.length data))) ;;
          d <- date_time_string (Some st_mtime) ;;
          send_header "Last-Modified" d ;;
          self_end_headers ;;
          ret (Some data)
    end.

(** [send_head]: the file to copy to the client, if any. *)
Definition send_head : M Handler (option string) :=
  p <- gets self_path ;;
  d <- gets directory ;;
  w <- gets files ;;
  let path := translate_path d p in
  if FS.isdir w path then
    let '(scheme, netloc, ppath, query, fragment) := urlsplit p in
    if negb (Py.endswith ppath "/") then
      send_response 301 None ;;
      let new_url :=
        urlunsplit (scheme, netloc, ppath ++ "/", query, fragment) in
      send_header "Location" new_url ;;
      send_header "Content-Length" "0" ;;
      self_end_headers ;;
      ret None
    else if FS.isfile w (posixpath.join path "index.html") then
      send_head_file (posixpath.join path "index.html")
    else if FS.isfile w (posixpath.join path "index.htm") then
      send_head_file (posixpath.join path "index.htm")
    else list_directory path
  else send_head_file path.

(** [copyfile(f, self.wfile)] *)
Definition copyfile (data : string) : M Handler unit := write data.

Definition do_GET : M Handler unit :=
  f <- send_head ;;
  match f with
  | Some data => copyfile data
  | None => ret tt
  end.

Definition do_HEAD : M Handler unit :=
  f <- send_head ;;
  ret tt.

(** [getattr(self, 'do_' + command)], [None] where [hasattr] is false. *)
Definition do_ (command : string) : option (M Handler unit) :=
  if String.eqb command "GET" then Some do_GET
  else if String.eqb command "HEAD" then Some do_HEAD
  else None.

End Methods.

End SimpleHTTPRequestHandler.

(** ** [server.py]: [CORSRequestHandler] *)

Module CORSRequestHandler.

Section Methods.

Context {L : Lib}.

Definition end_headers : M Handler unit :=
  BaseHTTPRequestHandler.send_header "Access-Control-Allow-Origin" "*" ;;
  BaseHTTPRequestHandler.send_header "Cache-Control"
    "no-cache, no-store, must-revalidate" ;;
  BaseHTTPRequestHandler.send_header "Pragma" "no-cache" ;;
  BaseHTTPRequestHandler.send_header "Expires" "0" ;;
  BaseHTTPRequestHandler.end_headers.

(** The inherited methods, with [self.end_headers] bound to the override. *)
Definition send_error := BaseHTTPRequestHandler.send_error end_headers.
Definition send_head := SimpleHTTPRequestHandler.send_head end_headers.
Definition do_GET := SimpleHTTPRequestHandler.do_GET end_headers.
Definition do_HEAD := SimpleHTTPRequestHandler.do_HEAD end_headers.
Definition do_ := SimpleHTTPRequestHandler.do_ end_headers.
Definition parse_request := BaseHTTPRequestHandler.parse_request end_headers.
Definition handle_one_request :=
  BaseHTTPRequestHandler.handle_one_request end_headers do_.
Definition handle := BaseHTTPRequestHandler.handle end_headers do_.

End Methods.

End CORSRequestHandler.

(** ** [socketserver] and the module body of [server.py] *)

Module Main.

(** What reaches the process from outside while it serves. *)
Inductive event : Type :=
| Connection (time : Z) (requests : list request)
| SIGINT.

(** What the process does that can be seen from outside, in order. *)
Inductive action : Type :=
| Stdout (text : string)
| Log (entry : log_entry)
| Traceback (e : exn)
| SocketCreate
| SocketBind (host : string) (port : Z)
| SocketListen (backlog : Z)
| SocketClose
| Reply (response : string)
| Exit (status : Z).

(** The process: what it was started with ([argv], [environ], the mounted
    files), what the outside will do ([bind_fault]: whether [bind] fails
    and with which message; [pending]: the events to come), and what it
    has done so far. *)
Record Process : Type := mkProcess {
  argv : list string;
  environ : list (string * string);
  disk : FS.t;
  bind_fault : option string;
  pending : list event;
  trace : list action
}.

Definition record (a : list action) (p : Process) : Process :=
  mkProcess (argv p) (environ p) (disk p) (bind_fault p) (pending p)
    (trace p ++ a)%list.

Definition emit (a : list action) : M Process unit := modify (record a).

Definition with_pending (v : list event) (p : Process) : Process :=
  mkProcess (argv p) (environ p) (disk p) (bind_fault p) v (trace p).

Definition set_pending (v : list event) : M Process unit :=
  modify (with_pending v).

Definition set_disk (v : FS.t) : M Process unit :=
  modify (fun p =>
            mkProcess (argv p) (environ p) v (bind_fault p) (pending p)
              (trace p)).

(** [print(s)] *)
Definition print (s : string) : M Process unit :=
  emit [Stdout (s ++ BaseHTTPRequestHandler.NL)].

(** [sys.exit(code)] *)
Definition sys_exit {A} (code : Z) : M Process A := raise (SystemExit code).

(** The server object: the address it was given. *)
Record Server : Type := { server_address : string * Z }.

Definition request_queue_size : Z := 5.

(** [HTTPServer(server_address, RequestHandlerClass)], that is
    [TCPServer.__init__]: create the socket, then [server_bind] and
    [server_activate]; when one of them raises, [server_close] and raise
    again. *)
Definition HTTPServer (server_address : string * Z) : M Process Server :=
  emit [SocketCreate] ;;
  try_except
    (emit [SocketBind (fst server_address) (snd server_address)] ;;
     fault <- gets bind_fault ;;
     match fault with
     | Some strerror => raise (OSError strerror)
     | None =>
         emit [SocketListen request_queue_size] ;;
         ret {| server_address := server_address |}
     end)
    (fun e => Some (emit [SocketClose] ;; raise e)).

Section Serve.

Context {L : Lib}.

(** [SimpleHTTPRequestHandler.__init__] down to [setup]: the instance
    before [handle] runs. *)
Definition new_handler (w : FS.t) (t : Z) (requests : list request)
  : Handler :=
  {| rfile := requests; wfile := ""; stderr := []; files := w; time := t;
     directory := FS.getcwd w; requestline := "";
     request_version := BaseHTTPRequestHandler.default_request_version;
     command := None; path := ""; headers := [];
     close_connection := true; _headers_buffer := None |}.

(** The handler instance of one connection, once [handle] is over (or
    has raised), and what the connection leaves in the trace: the lines
    logged and the bytes sent back. *)
Definition session (w : FS.t) (t : Z) (requests : list request) : Handler :=
  match CORSRequestHandler.handle (new_handler w t requests) with
  | Return _ h | Raise _ h | Waiting h => h
  end.

Definition exchange (w : FS.t) (t : Z) (requests : list request)
  : list action :=
  (map Log (stderr (session w t requests))
   ++ [Reply (wfile (session w t requests))])%list.

(** [_handle_request_noblock]: accept one connection and let a fresh
    [CORSRequestHandler] serve it.  An [Exception] of the handler is
    reported by [handle_error] and the loop goes on; anything else is
    raised again. *)
Definition _handle_request_noblock (t : Z) (requests : list request)
  : M Process unit :=
  w <- gets disk ;;
  let r := CORSRequestHandler.handle (new_handler w t requests) in
  set_disk (files (session w t requests)) ;;
  emit (exchange w t requests) ;;
  match r with
  | Return _ _ => ret tt
  | Raise KeyboardInterrupt _ => raise KeyboardInterrupt
  | Raise (SystemExit c) _ => raise (SystemExit c)
  | Raise e _ => emit [Traceback e]
  | Waiting _ => fun p => Waiting p
  end.

(** The loop of [serve_forever] over the events to come: it ends only by
    an exception, and waits in [select] when nothing is left. *)
Fixpoint serve_loop (events : list event) : M Process unit :=
  match events with
  | [] => set_pending [] ;; (fun p => Waiting p)
  | SIGINT :: rest => set_pending rest ;; raise KeyboardInterrupt
  | Connection t requests :: rest =>
      set_pending rest ;;
      _handle_request_noblock t requests ;;
      serve_loop rest
  end.

Definition serve_forever (httpd : Server) : M Process unit :=
  events <- gets pending ;;
  serve_loop events.

Definition port : Z := 8000.

(** The statements of [server.py] after the class definition. *)
Definition main : M Process unit :=
  print ("Starting server at http://localhost:" ++ Py.str port) ;;
  httpd <- HTTPServer ("localhost", port) ;;
  try_except (serve_forever httpd)
    (fun e => match e with
              | KeyboardInterrupt =>
                  Some (print (BaseHTTPRequestHandler.NL ++ "Server stopped.") ;;
                        sys_exit 0)
              | _ => None
              end).

(** [python server.py]: run the module; [SystemExit] sets the exit
    status, any other exception that reaches the top is printed and the
    status is 1; the status is [None] while the process is still
    running. *)
Definition run (p : Process) : Process * option Z :=
  match main p with
  | Return _ p' => (record [Exit 0] p', Some 0)
  | Raise (SystemExit code) p' => (record [Exit code] p', Some code)
  | Raise e p' => (record [Traceback e; Exit 1] p', Some 1)
  | Waiting p' => (p', None)
  end.

(** Connections one after the other, and what serving them on the files
    [w] leaves in the trace. *)
Definition connections (cs : list (Z * list request)) : list event :=
  map (fun c => Connection (fst c) (snd c)) cs.

Definition exchanges (w : FS.t) (cs : list (Z * list request))
  : list action :=
  flat_map (fun c => exchange w (fst c) (snd c)) cs.

(** What the process does before it serves: the banner, then the
    socket. *)
Definition banner : string :=
  "Starting server at http://localhost:8000" ++ BaseHTTPRequestHandler.NL.

Definition startup : list action :=
  [Stdout banner; SocketCreate; SocketBind "localhost" 8000].

(** The text on standard output, and the replies sent, in a trace. *)
Fixpoint stdout (tr : list action) : string :=
  match tr with
  | [] => ""
  | Stdout s :: tr' => s ++ stdout tr'
  | _ :: tr' => stdout tr'
  end.

(** The addresses the process has asked to bind. *)
Fixpoint binds (tr : list action) : list (string * Z) :=
  match tr with
  | [] => []
  | SocketBind host port :: tr' => (host, port) :: binds tr'
  | _ :: tr' => binds tr'
  end.

Fixpoint replies (tr : list action) : list string :=
  match tr with
  | [] => []
  | Reply r :: tr' => r :: replies tr'
  | _ :: tr' => replies tr'
  end.

End Serve.

End Main.

(** ** A reference instance of the library

    One choice of the library functions, for running the model on
    concrete requests: ASCII text, request targets in origin form
    ([/path?query#fragment]) and dates in the form [formatdate] prints. *)

Module Posix.

Definition digit (c : ascii) : option Z :=
  let n := nat_of_ascii c in
  if ((48 <=? n) && (n <=? 57))%nat then Some (Z.of_nat (n - 48)) else None.

Fixpoint int_digits (acc : Z) (s : string) : option Z :=
  match s with
  | EmptyString => Some acc
  | String c s' =>
      match digit c with
      | Some d => int_digits (10 * acc + d) s'
      | None => None
      end
  end.

Definition int (s : string) : option Z :=
  if String.eqb s "" then None else int_digits 0 s.

Definition repr (s : string) : string := "'" ++ s ++ "'".

Definition hexval (c : ascii) : option nat :=
  let n := nat_of_ascii c in
  if ((48 <=? n) && (n <=? 57))%nat then Some (n - 48)%nat
  else if ((65 <=? n) && (n <=? 70))%nat then Some (n - 55)%nat
  else if ((97 <=? n) && (n <=? 102))%nat then Some (n - 87)%nat
  else None.

Fixpoint unquote (s : string) : string :=
  match s with
  | EmptyString => EmptyString
  | String c t =>
      if Ascii.eqb c "%" then
        match t with
        | String a (String b s') =>
            match hexval a, hexval b with
            | Some x, Some y => String (ascii_of_nat (16 * x + y)) (unquote s')
            | _, _ => String c (unquote t)
            end
        | _ => String c (unquote t)
        end
      else String c (unquote t)
  end.

Definition hexdigit (n : nat) : ascii :=
  if (n <? 10)%nat then ascii_of_nat (48 + n) else ascii_of_nat (55 + n).

Definition safe (c : ascii) : bool :=
  let n := nat_of_ascii c in
  ((48 <=? n) && (n <=? 57) || (65 <=? n) && (n <=? 90)
   || (97 <=? n) && (n <=? 122))%nat
  || Py.contains_char c "_.-~/".

Fixpoint quote (s : string) : string :=
  match s with
  | EmptyString => EmptyString
  | String c t =>
      if safe c then String c (quote t)
      else
        let n := nat_of_ascii c in
        String "%" (String (hexdigit (n / 16)) (String (hexdigit (n mod 16))
                                                 (quote t)))
  end.

Definition urlsplit (url : string)
  : string * string * string * string * string :=
  let l := Py.split1 "#" url in
  let fragment := nth 1 l "" in
  let l := Py.split1 "?" (nth 0 l "") in
  ("", "", nth 0 l "", nth 1 l "", fragment).

Definition urlunsplit (parts : string * string * string * string * string)
  : string :=
  let '(scheme, netloc, p, query, fragment) := parts in
  p ++ (if String.eqb query "" then "" else "?" ++ query)
    ++ (if String.eqb fragment "" then "" else "#" ++ fragment).

Definition guess_type (p : string) : string :=
  if Py.endswith p ".html" then "text/html"
  else if Py.endswith p ".txt" then "text/plain"
  else if Py.endswith p ".json" then "application/json"
  else "application/octet-stream".

Definition weekdayname : list string :=
  ["Mon"; "Tue"; "Wed"; "Thu"; "Fri"; "Sat"; "Sun"].

Definition monthname : list string :=
  ["Jan"; "Feb"; "Mar"; "Apr"; "May"; "Jun";
   "Jul"; "Aug"; "Sep"; "Oct"; "Nov"; "Dec"].

Definition two (n : Z) : string :=
  if n <? 10 then "0" ++ Py.str n else Py.str n.

(** Year, month and day of the day numbered [z] from 1970-01-01. *)
Definition civil_from_days (z : Z) : Z * Z * Z :=
  let z := z + 719468 in
  let era := z / 146097 in
  let doe := z - era * 146097 in
  let yoe := (doe - doe / 1460 + doe / 36524 - doe / 146096) / 365 in
  let doy := doe - (365 * yoe + yoe / 4 - yoe / 100) in
  let mp := (5 * doy + 2) / 153 in
  let d := doy - (153 * mp + 2) / 5 + 1 in
  let m := if mp <? 10 then mp + 3 else mp - 9 in
  let y := yoe + era * 400 + (if m <=? 2 then 1 else 0) in
  (y, m, d).

Definition days_from_civil (y m d : Z) : Z :=
  let y := if m <=? 2 then y - 1 else y in
  let era := y / 400 in
  let yoe := y - era * 400 in
  let doy := (153 * (if 2 <? m then m - 3 else m + 9) + 2) / 5 + d - 1 in
  let doe := yoe * 365 + yoe / 4 - yoe / 100 + doy in
  era * 146097 + doe - 719468.

Definition formatdate (t : Z) : string :=
  let days := t / 86400 in
  let secs := t mod 86400 in
  let '(y, m, d) := civil_from_days days in
  nth (Z.to_nat ((days + 3) mod 7)) weekdayname "" ++ ", " ++ two d ++ " "
    ++ nth (Z.to_nat (m - 1)) monthname "" ++ " " ++ Py.str y ++ " "
    ++ two (secs / 3600) ++ ":" ++ two (secs mod 3600 / 60) ++ ":"
    ++ two (secs mod 60) ++ " GMT".

Fixpoint index_of (x : string) (l : list string) (i : Z) : option Z :=
  match l with
  | [] => None
  | y :: l' => if String.eqb x y then Some i else index_of x l' (i + 1)
  end.

Definition parsedate_utc (s : string) : option Z :=
  match Py.split s with
  | [_; d; mon; y; hms; "GMT"] =>
      match int d, index_of mon monthname 1, int y,
            map int (Py.split_char ":" hms) with
      | Some d, Some m, Some y, [Some hh; Some mm; Some ss] =>
          Some (days_from_civil y m d * 86400 + hh * 3600 + mm * 60 + ss)
      | _, _, _, _ => None
      end
  | _ => None
  end.

Definition lib : Lib :=
  Build_Lib int repr unquote quote urlsplit urlunsplit guess_type formatdate
    parsedate_utc "Python/3.11.2" "utf-8" (fun s => s) (fun s => s).

End Posix.

(** ** A served directory and a few requests

    The tree [/srv/www], the working directory of the examples:
    - [index.html], readable, holding [<h1>hi</h1>];
    - [secret.txt], which exists and is not readable;
    - [docs/], with two files and no index page;
    - [locked/], a directory that cannot be listed. *)

Module Example.

#[local] Existing Instance Posix.lib.

Definition now : Z := 1700000000.

Definition www : FS.node :=
  FS.Dir true
    [ ("index.html", FS.File true now "<h1>hi</h1>");
      ("secret.txt", FS.File false now "top secret");
      ("docs", FS.Dir true [ ("a.txt", FS.File true now "A");
                             ("B.txt", FS.File true now "B") ]);
      ("locked", FS.Dir false [ ("x", FS.File true now "x") ]) ].

Definition disk : FS.t :=
  {| FS.root := FS.Dir true [ ("srv", FS.Dir true [ ("www", www) ]) ];
     FS.getcwd := "/srv/www" |}.

(** A request made of its request line alone. *)
Definition request_line (line : string) : request :=
  {| raw_requestline := line ++ Py.CRLF; header_lines := Headers [] |}.

(** The handler once it has served the connection that carries the one
    request [line], and the bytes it has sent back. *)
Definition served (line : string) : Handler :=
  match CORSRequestHandler.handle
          (Main.new_handler disk now [request_line line]) with
  | Return _ h | Raise _ h | Waiting h => h
  end.

Definition reply (line : string) : string := wfile (served line).

(** The handler as [parse_request] leaves it, about to call [do_GET]. *)
Definition parsed_request (line : string) : Handler :=
  match CORSRequestHandler.parse_request (request_line line)
          (Main.new_handler disk now []) with
  | Return _ h | Raise _ h | Waiting h => h
  end.

End Example.

(** * The vocabulary of the properties *)

(** ** Triples over the state monad

    [hoare P m Q]: from a state in [P], [m] returns (it neither raises nor
    waits) a value and a state in [Q]. *)

Definition hoare {S A : Type} (P : S -> Prop) (m : M S A)
  (Q : A -> S -> Prop) : Prop :=
  forall s, P s -> exists a s', m s = Return a s' /\ Q a s'.

(** [inv I m]: [m] returns and keeps [I]. *)
Definition inv {S A : Type} (I : S -> Prop) (m : M S A) : Prop :=
  hoare I m (fun _ => I).

(** ** Responses

    The four lines [CORSRequestHandler.end_headers] adds, and the lines
    the base handler has buffered for the response by then. *)

Definition injected : list string :=
  [ "Access-Control-Allow-Origin: *" ++ Py.CRLF;
    "Cache-Control: no-cache, no-store, must-revalidate" ++ Py.CRLF;
    "Pragma: no-cache" ++ Py.CRLF;
    "Expires: 0" ++ Py.CRLF ].

Definition buffered (h : Handler) : list string :=
  match _headers_buffer h with
  | Some l => l
  | None => []
  end.

(** The header block of a response as [end_headers] writes it out. *)
Definition header_block_of (h : Handler) : string :=
  Py.join "" (buffered h ++ injected ++ [Py.CRLF]).

Definition is_http09 (h : Handler) : bool :=
  String.eqb (request_version h) "HTTP/0.9".

(** The status line and a header line, as the base handler formats
    them. *)
Definition status_line (code : Z) (phrase : string) : string :=
  BaseHTTPRequestHandler.protocol_version ++ " " ++ Py.str code ++ " "
    ++ phrase ++ Py.CRLF.

Definition header (keyword value : string) : string :=
  keyword ++ ": " ++ value ++ Py.CRLF.

(** The reason phrase of a status line: the message given, or the
    phrase of the code. *)
Definition phrase_of (code : Z) (message : option string) : string :=
  match message with
  | Some m => m
  | None => match BaseHTTPRequestHandler.responses code with
            | Some (phrase, _) => phrase
            | None => ""
            end
  end.

(** The lines [send_response] buffers. *)
Definition response_head {L : Lib} (h : Handler) (code : Z)
  (phrase : string) : list string :=
  [ status_line code phrase;
    header "Server" BaseHTTPRequestHandler.version_string;
    header "Date" (formatdate (time h)) ].

(** The handler after [send_response] in HTTP/1.x: one line in the log,
    three in the buffer. *)
Definition sent_response {L : Lib} (code : Z) (phrase : string)
  (h : Handler) : Handler :=
  BaseHTTPRequestHandler.buffer_append (header "Date" (formatdate (time h)))
    (BaseHTTPRequestHandler.buffer_append
       (header "Server" BaseHTTPRequestHandler.version_string)
       (BaseHTTPRequestHandler.buffer_append (status_line code phrase)
          (set_stderr (stderr h ++ [LogRequest (requestline h) code])%list
             h))).

(** A whole response: the lines of the base handler, the injected ones,
    the blank line, the body. *)
Definition response (lines : list string) (body : string) : string :=
  Py.join "" (lines ++ injected ++ [Py.CRLF]) ++ body.

(** The file system path of the request at hand, and the path component
    of its target as [send_head] takes it from [urlsplit]. *)
Definition target {L : Lib} (h : Handler) : string :=
  SimpleHTTPRequestHandler.translate_path (directory h) (path h).

Definition url_path {L : Lib} (h : Handler) : string :=
  let '(_, _, ppath, _, _) := urlsplit (path h) in ppath.

(** ** Invariants of the handler *)

(** An invariant that looks only at the files, at what was sent, at the
    request version and at whether the connection is to be closed, and
    one that survives further output. *)
Definition Stable (I : Handler -> Prop) : Prop :=
  forall h h', files h' = files h -> wfile h' = wfile h ->
               request_version h' = request_version h ->
               (close_connection h = true -> close_connection h' = true) ->
               I h -> I h'.

Definition Grows (I : Handler -> Prop) : Prop :=
  forall h x, I h -> I (set_wfile (wfile h ++ x) h).

(** [sent w0 h]: the handler has only added to the output [w0]. *)
Definition sent (w0 : string) (h : Handler) : Prop :=
  exists x, wfile h = w0 ++ x.

(** [has_cors w0 w]: past [w0], the output [w] holds the four injected
    lines, in order, followed by the blank line. *)
Definition has_cors (w0 w : string) : Prop :=
  exists pre post,
    w = w0 ++ pre ++ Py.join "" injected ++ Py.CRLF ++ post.

(** [closing c h]: when [c] is set, the connection is to be closed after
    the request at hand. *)
Definition closing (c : bool) (h : Handler) : Prop :=
  c = true -> close_connection h = true.

(** While a response is being prepared, and once its headers are out. *)
Definition Open (c : bool) (w : FS.t) (w0 v : string) (h : Handler) : Prop :=
  files h = w /\ request_version h = v /\ sent w0 h /\ closing c h.

Definition Done (c : bool) (w : FS.t) (w0 v : string) (h : Handler) : Prop :=
  Open c w w0 v h /\ (v = "HTTP/0.9" \/ has_cors w0 (wfile h)).

(** Before a request is read: nothing sent yet.  Once it is parsed:
    something may have been sent.  At the end: the request has been
    answered, with nothing, in HTTP/0.9 style, or with a header block that
    holds the injected lines. *)
Definition Idle (c : bool) (w : FS.t) (w0 : string) (h : Handler) : Prop :=
  files h = w /\ wfile h = w0 /\ closing c h.

Definition Ready (c : bool) (w : FS.t) (w0 : string) (h : Handler) : Prop :=
  files h = w /\ sent w0 h /\ closing c h.

Definition Answered (c : bool) (w : FS.t) (w0 : string) (h : Handler)
  : Prop :=
  files h = w /\ closing c h /\
  (wfile h = w0 \/ request_version h = "HTTP/0.9" \/ has_cors w0 (wfile h)).

(** What [parse_request] leaves: ready to answer when it says [True],
    answered already when it says [False]. *)
Definition Parsed (c : bool) (w : FS.t) (w0 : string) (ok : bool)
  (h : Handler) : Prop :=
  if ok then Ready c w w0 h else Answered c w w0 h.

(** ** Paths *)






(** ** Requests and error pages *)

(** The request line as [parse_request] keeps it: the line read, without
    the line break at its end. *)
Definition line_of (r : request) : string :=
  Py.rstrip_by BaseHTTPRequestHandler.is_crlf (raw_requestline r).

(** The path [parse_request] stores for the target [path]: slashes at the
    front are reduced to one. *)
Definition stored_path (path : string) : string :=
  if Py.startswith path "//"
  then "/" ++ Py.lstrip_by (Ascii.eqb "/") path
  else path.

(** The handler as [parse_request] leaves it when it accepts a request
    line of three words. *)
Definition accepted (r : request) (command path version : string)
  (hs : list (string * string)) (h : Handler) : Handler :=
  mkHandler (rfile h) (wfile h) (stderr h) (files h) (time h) (directory h)
    (line_of r) version (Some command) (stored_path path) hs true
    (_headers_buffer h).

(** Whether the request at hand is a [HEAD]. *)
Definition is_head (h : Handler) : bool :=
  match command h with
  | Some c => String.eqb c "HEAD"
  | None => false
  end.

(** The codes [send_error] sends a page for. *)
Definition has_page (code : Z) : bool :=
  (200 <=? code) && negb ((code =? 204) || (code =? 205) || (code =? 304)).

(** The explanation of an error page: the one given, or the long message
    of the code. *)
Definition explanation (code : Z) (explain : option string) : string :=
  match explain with
  | Some e => e
  | None => match BaseHTTPRequestHandler.responses code with
            | Some (_, longmsg) => longmsg
            | None => "???"
            end
  end.

(** The page of an error response, and the lines in front of it. *)
Definition error_page {L : Lib} (code : Z) (message explain : string)
  : string :=
  encode_utf8
    (BaseHTTPRequestHandler.error_message_format code
       (BaseHTTPRequestHandler.html_escape message)
       (BaseHTTPRequestHandler.html_escape explain)).

Definition error_lines {L : Lib} (h : Handler) (code : Z)
  (message explain : string) : list string :=
  (response_head h code message
   ++ [ header "Connection" "close";
        header "Content-Type" BaseHTTPRequestHandler.error_content_type;
        header "Content-Length"
          (Py.str
             (Z.of_nat (String.length (error_page code message explain)))) ]
  )%list.

(** ** The process *)

(** Whether an interrupt is among the events to come. *)
Definition interrupted (events : list Main.event) : bool :=
  existsb (fun e => match e with
                    | Main.SIGINT => true
                    | Main.Connection _ _ => false
                    end) events.


(** Whether a trace records that the socket was closed. *)
Definition closes (tr : list Main.action) : bool :=
  existsb (fun a => match a with
                    | Main.SocketClose => true
                    | _ => false
                    end) tr.

(** ** Replies to one request

    [bare_error_reply h r rest code message]: the handler [h], reading the
    request [r] in front of [rest], answers with the error page of [code]
    and [message] and nothing else (no status line, no header), logs the
    error and is to close the connection. *)
Definition bare_error_reply {L : Lib} (h : Handler) (r : request)
  (rest : list request) (code : Z) (message : string) : Prop :=
  exists h',
    CORSRequestHandler.handle_one_request h = Return tt h'
    /\ wfile h' = wfile h ++ error_page code message (explanation code None)
    /\ stderr h' =
       (stderr h ++ [LogError code message; LogRequest (line_of r) code])%list
    /\ close_connection h' = true
    /\ rfile h' = rest.

(** ** Redirection *)

(** The URL a directory asked for without its final slash is redirected
    to: the target of the request with a slash added to its path. *)
Definition location {L : Lib} (h : Handler) : string :=
  let '(scheme, netloc, ppath, query, fragment) := urlsplit (path h) in
  urlunsplit (scheme, netloc, ppath ++ "/", query, fragment).

(** * Properties *)

(** ** Strings *)

Lemma append_nil_r (s : string) : s ++ "" = s.
Proof. induction s as [|c s IH]; simpl; [reflexivity | now rewrite IH]. Qed.

Lemma append_assoc (a b c : string) : (a ++ b) ++ c = a ++ b ++ c.
Proof. induction a as [|x a IH]; simpl; [reflexivity | now rewrite IH]. Qed.

Lemma join_cons (x : string) (l : list string) :
  Py.join "" (x :: l) = x ++ Py.join "" l.
Proof.
  unfold Py.join. destruct l as [|y l]; simpl.
  - now rewrite append_nil_r.
  - reflexivity.
Qed.

Lemma join_app (l1 l2 : list string) :
  Py.join "" (l1 ++ l2) = Py.join "" l1 ++ Py.join "" l2.
Proof.
  induction l1 as [|x l1 IH].
  - reflexivity.
  - rewrite <- app_comm_cons, !join_cons, IH. now rewrite append_assoc.
Qed.

(** ** Triples over the state monad *)

Section Triples.

Context {S : Type}.

Lemma hoare_ret {A} (P : S -> Prop) (Q : A -> S -> Prop) (a : A) :
  (forall s, P s -> Q a s) -> hoare P (ret a) Q.
Proof. intros H s Hs. exists a, s. split; [reflexivity | auto]. Qed.

Lemma hoare_bind {A B} (P : S -> Prop) (R : A -> S -> Prop)
  (Q : B -> S -> Prop) (m : M S A) (k : A -> M S B) :
  hoare P m R -> (forall a, hoare (R a) (k a) Q) -> hoare P (bind m k) Q.
Proof.
  intros Hm Hk s Hs. destruct (Hm s Hs) as (a & s1 & E1 & H1).
  destruct (Hk a s1 H1) as (b & s2 & E2 & H2).
  exists b, s2. unfold bind. rewrite E1. auto.
Qed.

Lemma hoare_gets {A} (P : S -> Prop) (Q : A -> S -> Prop) (f : S -> A) :
  (forall s, P s -> Q (f s) s) -> hoare P (gets f) Q.
Proof. intros H s Hs. exists (f s), s. split; [reflexivity | auto]. Qed.

Lemma hoare_modify (P : S -> Prop) (Q : unit -> S -> Prop) (f : S -> S) :
  (forall s, P s -> Q tt (f s)) -> hoare P (modify f) Q.
Proof. intros H s Hs. exists tt, (f s). split; [reflexivity | auto]. Qed.

Lemma hoare_weaken {A} (P P' : S -> Prop) (Q Q' : A -> S -> Prop)
  (m : M S A) :
  hoare P' m Q' -> (forall s, P s -> P' s) ->
  (forall a s, Q' a s -> Q a s) -> hoare P m Q.
Proof.
  intros H HP HQ s Hs. destruct (H s (HP s Hs)) as (a & s' & E & H').
  exists a, s'. auto.
Qed.

Lemma inv_ret {A} (I : S -> Prop) (a : A) : inv I (ret a).
Proof. apply hoare_ret. auto. Qed.

Lemma inv_bind {A B} (I : S -> Prop) (m : M S A) (k : A -> M S B) :
  inv I m -> (forall a, inv I (k a)) -> inv I (bind m k).
Proof. intros Hm Hk. eapply hoare_bind; [exact Hm | exact Hk]. Qed.

Lemma inv_gets {A} (I : S -> Prop) (f : S -> A) : inv I (gets f).
Proof. apply hoare_gets. auto. Qed.

Lemma inv_modify (I : S -> Prop) (f : S -> S) :
  (forall s, I s -> I (f s)) -> inv I (modify f).
Proof. intro H. apply hoare_modify. exact H. Qed.

Lemma inv_when (I : S -> Prop) (c : bool) (m : M S unit) :
  inv I m -> inv I (when c m).
Proof. intro H. destruct c; [exact H | apply inv_ret]. Qed.

(** A step that keeps [I] can go in front of any triple from [I]. *)
Lemma hoare_seq_inv {A B} (I : S -> Prop) (Q : B -> S -> Prop)
  (m : M S A) (k : A -> M S B) :
  inv I m -> (forall a, hoare I (k a) Q) -> hoare I (bind m k) Q.
Proof. intros Hm Hk. eapply hoare_bind; [exact Hm | exact Hk]. Qed.

End Triples.

(** ** The header block *)

Lemma bind_eq {S A B : Type} (m : M S A) (k : A -> M S B) (s s' : S)
  (a : A) :
  m s = Return a s' -> bind m k s = k a s'.
Proof. intro E. unfold bind. now rewrite E. Qed.

(** [send_header] for a keyword other than [Connection]. *)
Lemma send_header_plain (keyword value : string) (h : Handler) :
  String.eqb (Py.lower keyword) "connection" = false ->
  BaseHTTPRequestHandler.send_header keyword value h =
  Return tt
    (if is_http09 h then h
     else BaseHTTPRequestHandler.buffer_append
            (keyword ++ ": " ++ value ++ Py.CRLF) h).
Proof.
  intro K. unfold BaseHTTPRequestHandler.send_header, is_http09, bind, gets.
  rewrite K. destruct (String.eqb (request_version h) "HTTP/0.9");
    reflexivity.
Qed.

Lemma send_header_09 (keyword value : string) (h : Handler) :
  is_http09 h = true ->
  String.eqb (Py.lower keyword) "connection" = false ->
  BaseHTTPRequestHandler.send_header keyword value h = Return tt h.
Proof. intros E K. rewrite send_header_plain, E by exact K. reflexivity. Qed.

Lemma send_header_1x (keyword value : string) (h : Handler) :
  is_http09 h = false ->
  String.eqb (Py.lower keyword) "connection" = false ->
  BaseHTTPRequestHandler.send_header keyword value h =
  Return tt
    (BaseHTTPRequestHandler.buffer_append
       (keyword ++ ": " ++ value ++ Py.CRLF) h).
Proof. intros E K. rewrite send_header_plain, E by exact K. reflexivity. Qed.

Lemma base_end_headers_eq (h : Handler) :
  BaseHTTPRequestHandler.end_headers h =
  if is_http09 h then Return tt h
  else match _headers_buffer h with
       | Some l =>
           Return tt
             (set_headers_buffer (Some [])
                (set_wfile (wfile h ++ Py.join "" (l ++ [Py.CRLF])) h))
       | None => Raise (AttributeError "_headers_buffer") h
       end.
Proof.
  unfold BaseHTTPRequestHandler.end_headers, is_http09, bind, gets.
  destruct (String.eqb (request_version h) "HTTP/0.9"); [reflexivity|].
  unfold when, negb, bind, modify, BaseHTTPRequestHandler.flush_headers,
    write, bind, gets, modify.
  destruct (_headers_buffer h); reflexivity.
Qed.

(** What the override does, in one equation. *)
Lemma end_headers_eq (h : Handler) :
  CORSRequestHandler.end_headers h =
  Return tt
    (if is_http09 h then h
     else set_headers_buffer (Some [])
            (set_wfile (wfile h ++ header_block_of h) h)).
Proof.
  unfold CORSRequestHandler.end_headers.
  destruct (is_http09 h) eqn:E.
  - do 4 (erewrite bind_eq by (apply send_header_09; [exact E | reflexivity])).
    rewrite base_end_headers_eq, E. reflexivity.
  - do 4 (erewrite bind_eq by (apply send_header_1x; [exact E | reflexivity])).
    rewrite base_end_headers_eq.
    match goal with
    | |- (if ?c then _ else _) = _ => change c with (is_http09 h)
    end.
    rewrite E. unfold header_block_of, buffered.
    destruct (_headers_buffer h) as [l|] eqn:B;
      unfold BaseHTTPRequestHandler.buffer_append; rewrite B; cbn;
      repeat rewrite <- app_assoc; reflexivity.
Qed.

(** C10: the override always returns; what it adds to the output is the
    lines buffered by the base handler for the response, then the four
    injected lines in the order [Access-Control-Allow-Origin],
    [Cache-Control], [Pragma], [Expires], then the blank line that ends the
    headers, and nothing is left in the buffer.  (A request handled as
    HTTP/0.9 has no header block at all: nothing is buffered and nothing
    is written.) *)
Theorem end_headers_injects_last (h : Handler) :
  exists h',
    CORSRequestHandler.end_headers h = Return tt h'
    /\ wfile h' =
       wfile h
       ++ (if is_http09 h then ""
           else Py.join "" (buffered h)
                ++ "Access-Control-Allow-Origin: *" ++ Py.CRLF
                ++ "Cache-Control: no-cache, no-store, must-revalidate"
                ++ Py.CRLF
                ++ "Pragma: no-cache" ++ Py.CRLF
                ++ "Expires: 0" ++ Py.CRLF
                ++ Py.CRLF)
    /\ buffered h' = (if is_http09 h then buffered h else []).
Proof.
  rewrite end_headers_eq. eexists. split; [reflexivity|].
  destruct (is_http09 h).
  - split; [now rewrite append_nil_r | reflexivity].
  - split; [| reflexivity]. cbn [wfile set_wfile set_headers_buffer].
    unfold header_block_of. rewrite join_app. reflexivity.
Qed.

(** ** Invariants of the handler methods *)

Lemma sent_refl (h : Handler) : sent (wfile h) h.
Proof. exists "". now rewrite append_nil_r. Qed.

Lemma sent_grows (w0 : string) : Grows (sent w0).
Proof.
  intros h x [y E]. exists (y ++ x). cbn. now rewrite E, append_assoc.
Qed.

Lemma has_cors_grows (w0 w x : string) : has_cors w0 w -> has_cors w0 (w ++ x).
Proof.
  intros (pre & post & E). exists pre, (post ++ x). rewrite E.
  now rewrite !append_assoc.
Qed.

Lemma Open_stable c w w0 v : Stable (Open c w w0 v).
Proof.
  intros h h' F W V C (Hf & Hv & [x Hx] & Hc).
  repeat split; try congruence.
  - exists x. congruence.
  - intro E. auto.
Qed.

Lemma Open_grows c w w0 v : Grows (Open c w w0 v).
Proof.
  intros h x (Hf & Hv & Hs & Hc). repeat split; auto. now apply sent_grows.
Qed.

Lemma Done_stable c w w0 v : Stable (Done c w w0 v).
Proof.
  intros h h' F W V C [Ho Hc]. split.
  - now apply (Open_stable c w w0 v h h').
  - rewrite W. exact Hc.
Qed.

Lemma Done_grows c w w0 v : Grows (Done c w w0 v).
Proof.
  intros h x [Ho Hc]. split.
  - now apply Open_grows.
  - destruct Hc as [Hc|Hc]; [now left | right]. cbn.
    now apply has_cors_grows.
Qed.

Create HintDb hoare.

#[local] Hint Resolve Open_stable Open_grows Done_stable Done_grows : hoare.

Section Helpers.

Context {L : Lib}.
Variable I : Handler -> Prop.
Hypothesis I_stable : Stable I.

Import BaseHTTPRequestHandler.

(** A field update that leaves the files, the output, the request
    version and the closing of the connection alone keeps a stable
    invariant. *)
Lemma inv_update (f : Handler -> Handler) :
  (forall h, files (f h) = files h) ->
  (forall h, wfile (f h) = wfile h) ->
  (forall h, request_version (f h) = request_version h) ->
  (forall h, close_connection (f h) = close_connection h) ->
  inv I (modify f).
Proof.
  intros F W V C. apply inv_modify. intros h Hh.
  apply (I_stable h (f h)); auto. now rewrite C.
Qed.

Lemma inv_log_request code : inv I (log_request code).
Proof. apply inv_update; reflexivity. Qed.

Lemma inv_log_error code message : inv I (log_error code message).
Proof. apply inv_update; reflexivity. Qed.

Lemma inv_buffer_append line : inv I (modify (buffer_append line)).
Proof. apply inv_update; reflexivity. Qed.

Lemma inv_close : inv I (modify (set_close_connection true)).
Proof.
  apply inv_modify. intros h Hh.
  apply (I_stable h (set_close_connection true h)); auto.
Qed.

Lemma inv_send_response_only code message :
  inv I (send_response_only code message).
Proof.
  unfold send_response_only. apply inv_bind; [apply inv_gets | intro v].
  apply inv_when, inv_buffer_append.
Qed.

(** Every header but [Connection: keep-alive], which the handler never
    sends. *)
Lemma inv_send_header keyword value :
  String.eqb (Py.lower keyword) "connection"
  && String.eqb (Py.lower value) "keep-alive" = false ->
  inv I (send_header keyword value).
Proof.
  intro K. unfold send_header. apply inv_bind; [apply inv_gets | intro v].
  apply inv_bind; [apply inv_when, inv_buffer_append | intros ?].
  destruct (String.eqb (Py.lower keyword) "connection"); [| apply inv_ret].
  cbn [when]. destruct (String.eqb (Py.lower value) "close").
  - apply inv_close.
  - cbn in K. rewrite K. apply inv_ret.
Qed.

Lemma inv_date_time_string timestamp : inv I (date_time_string timestamp).
Proof.
  destruct timestamp; cbn.
  - apply inv_ret.
  - apply inv_bind; [apply inv_gets | intro; apply inv_ret].
Qed.

Lemma inv_send_response code message : inv I (send_response code message).
Proof.
  unfold send_response.
  apply inv_bind; [apply inv_log_request | intros ?].
  apply inv_bind; [apply inv_send_response_only | intros ?].
  apply inv_bind; [apply inv_send_header; reflexivity | intros ?].
  apply inv_bind; [apply inv_date_time_string | intros d].
  apply inv_send_header; reflexivity.
Qed.

Hypothesis I_grows : Grows I.

Lemma inv_write data : inv I (write data).
Proof. apply inv_modify. intros h Hh. now apply I_grows. Qed.

(** The override keeps every invariant of this kind: in particular it
    always returns. *)
Lemma inv_end_headers : inv I CORSRequestHandler.end_headers.
Proof.
  intros h Hh. rewrite end_headers_eq. eexists _, _.
  split; [reflexivity|]. destruct (is_http09 h); [exact Hh|].
  apply (I_stable (set_wfile (wfile h ++ header_block_of h) h));
    try reflexivity; auto.
Qed.

End Helpers.

#[local] Hint Resolve inv_log_request inv_log_error inv_send_response_only
  inv_date_time_string inv_send_response inv_write inv_end_headers inv_close
  inv_ret inv_gets : hoare.

#[local] Hint Extern 1 (inv _ (BaseHTTPRequestHandler.send_header _ _)) =>
  apply inv_send_header; [ | reflexivity ] : hoare.

(** Invariant goals over code made of the helpers above. *)
Ltac inv_go :=
  repeat first
    [ progress intros
    | progress cbv beta
    | match goal with
      | |- hoare ?I ?m (fun _ => ?I) => change (inv I m)
      end
    | solve [eauto with hoare]
    | apply inv_bind
    | apply inv_when
    | match goal with
      | |- inv _ (if ?c then _ else _) => destruct c
      | |- inv _ (match ?x with _ => _ end) => destruct x
      end ].

(** A step that keeps the precondition, in front of a triple. *)
Ltac skip_inv := apply hoare_seq_inv; [ solve [inv_go] | intros ].

(** ** Every response that has headers has the injected ones *)

Section Responses.

Context {L : Lib}.
Variables (c : bool) (w : FS.t) (w0 v : string).

Lemma end_headers_done :
  hoare (Open c w w0 v) CORSRequestHandler.end_headers
    (fun _ => Done c w w0 v).
Proof.
  intros h (Hf & Hv & [x Hx] & Hc). rewrite end_headers_eq.
  eexists _, _. split; [reflexivity|].
  destruct (is_http09 h) eqn:E.
  - repeat split; auto; [now exists x|]. left.
    unfold is_http09 in E. apply String.eqb_eq in E. congruence.
  - repeat split; auto.
    + cbn. exists (x ++ header_block_of h). now rewrite Hx, append_assoc.
    + right. cbn. exists (x ++ Py.join "" (buffered h)), "".
      unfold header_block_of. rewrite Hx, !join_app, !append_assoc.
      reflexivity.
Qed.

(** Send the headers, then whatever keeps [Done]. *)
Lemma finish_response {A} (k : unit -> M Handler A) :
  (forall u, inv (Done c w w0 v) (k u)) ->
  hoare (Open c w w0 v) (bind CORSRequestHandler.end_headers k)
    (fun _ => Done c w w0 v).
Proof. intro Hk. eapply hoare_bind; [apply end_headers_done | exact Hk]. Qed.

Lemma send_error_done code message explain :
  hoare (Open c w w0 v) (CORSRequestHandler.send_error code message explain)
    (fun _ => Done c w w0 v).
Proof.
  unfold CORSRequestHandler.send_error, BaseHTTPRequestHandler.send_error.
  destruct (match BaseHTTPRequestHandler.responses code with
            | Some p => p
            | None => ("???", "???")
            end) as [shortmsg longmsg].
  do 4 skip_inv.
  apply finish_response. inv_go.
Qed.

Lemma list_directory_done path :
  hoare (Open c w w0 v)
    (SimpleHTTPRequestHandler.list_directory CORSRequestHandler.end_headers
       path)
    (fun _ => Done c w w0 v).
Proof.
  unfold SimpleHTTPRequestHandler.list_directory.
  skip_inv. destruct (FS.listdir a path) as [names|e].
  - do 4 skip_inv. apply finish_response. inv_go.
  - eapply hoare_bind; [apply send_error_done | inv_go].
Qed.

Lemma send_head_file_done path :
  hoare (Open c w w0 v)
    (SimpleHTTPRequestHandler.send_head_file CORSRequestHandler.end_headers
       path)
    (fun _ => Done c w w0 v).
Proof.
  unfold SimpleHTTPRequestHandler.send_head_file.
  destruct (Py.endswith path "/").
  - eapply hoare_bind; [apply send_error_done | inv_go].
  - skip_inv. destruct (FS.open_rb a path) as [[st_mtime data]|e].
    + skip_inv. destruct (SimpleHTTPRequestHandler.not_modified a0 st_mtime).
      * skip_inv. apply finish_response. inv_go.
      * do 5 skip_inv. apply finish_response. inv_go.
    + eapply hoare_bind; [apply send_error_done | inv_go].
Qed.

Lemma send_head_done :
  hoare (Open c w w0 v) CORSRequestHandler.send_head
    (fun _ => Done c w w0 v).
Proof.
  unfold CORSRequestHandler.send_head, SimpleHTTPRequestHandler.send_head.
  do 3 skip_inv.
  destruct (FS.isdir a1 (SimpleHTTPRequestHandler.translate_path a0 a)).
  - destruct (urlsplit a) as [[[[scheme netloc] ppath] query] fragment].
    destruct (negb (Py.endswith ppath "/")).
    + do 3 skip_inv. apply finish_response. inv_go.
    + destruct (FS.isfile a1 _); [apply send_head_file_done|].
      destruct (FS.isfile a1 _); [apply send_head_file_done|].
      apply list_directory_done.
  - apply send_head_file_done.
Qed.

Lemma do_GET_done :
  hoare (Open c w w0 v) CORSRequestHandler.do_GET (fun _ => Done c w w0 v).
Proof.
  eapply hoare_bind; [apply send_head_done | intros f].
  destruct f; unfold SimpleHTTPRequestHandler.copyfile; inv_go.
Qed.

Lemma do_HEAD_done :
  hoare (Open c w w0 v) CORSRequestHandler.do_HEAD (fun _ => Done c w w0 v).
Proof. eapply hoare_bind; [apply send_head_done | inv_go]. Qed.

End Responses.

(** ** One request, from the request line to the response *)

(** The protocol version of the class rules out keeping a connection
    alive. *)
Lemma protocol_is_http10 :
  Py.str_ge BaseHTTPRequestHandler.protocol_version "HTTP/1.1" = false.
Proof. reflexivity. Qed.

Section OneRequest.

Context {L : Lib}.
Variables (c : bool) (w : FS.t) (w0 : string).

Lemma Idle_Answered h : (Idle c w w0) h -> (Answered c w w0) h.
Proof. intros (F & W & C). repeat split; auto. Qed.

Lemma Idle_Ready h : (Idle c w w0) h -> (Ready c w w0) h.
Proof.
  intros (F & W & C). repeat split; auto. rewrite <- W. apply sent_refl.
Qed.

Lemma Done_Answered v h : Done c w w0 v h -> (Answered c w w0) h.
Proof.
  intros [(F & V & S & C) D]. repeat split; auto. right.
  destruct D as [D|D]; [left; congruence | now right].
Qed.

Lemma Ready_stable : Stable (Ready c w w0).
Proof.
  intros h h' F W V C (Hf & [x Hx] & Hc). repeat split; [congruence | |].
  - exists x. congruence.
  - intro E. auto.
Qed.

Lemma Ready_grows : Grows (Ready c w w0).
Proof. intros h x (Hf & Hs & Hc). repeat split; auto. now apply sent_grows. Qed.

Lemma inv_idle_update (f : Handler -> Handler) :
  (forall h, files (f h) = files h) ->
  (forall h, wfile (f h) = wfile h) ->
  (forall h, close_connection (f h) = close_connection h) ->
  inv (Idle c w w0) (modify f).
Proof.
  intros F W C. apply inv_modify. intros h (Hf & Hw & Hc).
  repeat split; try congruence. intro E. rewrite C. auto.
Qed.

Lemma inv_idle_close : inv (Idle c w w0) (modify (set_close_connection true)).
Proof.
  apply inv_modify. intros h (Hf & Hw & Hc). repeat split; auto.
Qed.

(** A method that answers, started before anything was sent. *)
Lemma answers {A} (m : M Handler A) :
  (forall v, hoare (Open c w w0 v) m (fun _ => Done c w w0 v)) ->
  hoare (Ready c w w0) m (fun _ => (Answered c w w0)).
Proof.
  intros Hm h (Hf & Hs & Hc).
  destruct (Hm (request_version h) h) as (a & h' & E & D).
  - repeat split; auto.
  - exists a, h'. split; [exact E|].
    now apply Done_Answered with (v := request_version h).
Qed.

Lemma send_error_answers code message explain :
  hoare (Ready c w w0) (CORSRequestHandler.send_error code message explain)
    (fun _ => (Answered c w w0)).
Proof. apply answers. intro v. apply send_error_done. Qed.

(** An error reply followed by [return False]. *)
Lemma refuse code message explain :
  hoare (Idle c w w0)
    (BaseHTTPRequestHandler.send_error CORSRequestHandler.end_headers code
       message explain ;; ret false)
    (fun ok h => ok = false /\ (Answered c w w0) h).
Proof.
  eapply hoare_bind.
  - eapply hoare_weaken; [apply send_error_answers | apply Idle_Ready |].
    intros a s H. exact H.
  - intros ?. apply hoare_ret. auto.
Qed.

Lemma refuse_parsed code message explain :
  hoare (Idle c w w0)
    (BaseHTTPRequestHandler.send_error CORSRequestHandler.end_headers code
       message explain ;; ret false)
    (Parsed c w w0).
Proof.
  eapply hoare_weaken; [apply refuse | auto |].
  intros ok s [-> H]. exact H.
Qed.

Lemma handle_expect_100_ready :
  hoare (Idle c w w0)
    (BaseHTTPRequestHandler.handle_expect_100 CORSRequestHandler.end_headers)
    (fun ok h => ok = true /\ (Ready c w w0) h).
Proof.
  unfold BaseHTTPRequestHandler.handle_expect_100.
  pose proof Ready_stable. pose proof Ready_grows.
  eapply hoare_bind with (R := fun _ => (Ready c w w0)).
  { eapply hoare_weaken
      with (P' := (Ready c w w0)) (Q' := fun _ => (Ready c w w0));
      [| apply Idle_Ready | auto].
    inv_go. }
  intros ?. eapply hoare_bind with (R := fun _ => (Ready c w w0)); [inv_go|].
  intros ?. apply hoare_ret. auto.
Qed.

Ltac idle_step :=
  apply hoare_seq_inv;
  [ first [ apply inv_idle_update; reflexivity
          | apply inv_idle_close
          | apply inv_gets ]
  | intros ? ].

Ltac split_if :=
  match goal with |- hoare _ (if ?c then _ else _) _ => destruct c end.

Lemma parse_request_headers_spec r :
  hoare (Idle c w w0)
    (BaseHTTPRequestHandler.parse_request_headers
       CORSRequestHandler.end_headers r)
    (Parsed c w w0).
Proof.
  unfold BaseHTTPRequestHandler.parse_request_headers.
  destruct (header_lines r) as [hs|err|err]; try apply refuse_parsed.
  idle_step.
  apply hoare_seq_inv.
  { destruct (String.eqb _ "close"); [apply inv_idle_close|].
    rewrite protocol_is_http10, andb_false_r. apply inv_ret. }
  intros ?. idle_step. split_if.
  - eapply hoare_bind; [apply handle_expect_100_ready | intros ok].
    destruct ok; apply hoare_ret; cbn; [tauto|].
    intros s [E _]. discriminate E.
  - apply hoare_ret. intros s. apply Idle_Ready.
Qed.

Lemma parse_request_words_spec r requestline words :
  hoare (Idle c w w0)
    (BaseHTTPRequestHandler.parse_request_words
       CORSRequestHandler.end_headers r requestline words)
    (Parsed c w w0).
Proof.
  unfold BaseHTTPRequestHandler.parse_request_words.
  split_if; [apply refuse_parsed|].
  eapply hoare_bind
    with (R := fun ok h =>
                 if ok : bool then (Idle c w w0) h else (Answered c w w0) h).
  - split_if; [| apply hoare_ret; auto].
    idle_step. split_if; [| apply hoare_ret; auto].
    eapply hoare_weaken; [apply refuse | auto |].
    intros ok s [-> H]. exact H.
  - intros [|]; cbn.
    + do 2 idle_step.
      apply hoare_seq_inv;
        [apply inv_when, inv_idle_update; reflexivity | intros ?].
      apply parse_request_headers_spec.
    + apply hoare_ret. auto.
Qed.

Lemma parse_request_spec r :
  hoare (Idle c w w0) (CORSRequestHandler.parse_request r) (Parsed c w w0).
Proof.
  unfold CORSRequestHandler.parse_request,
    BaseHTTPRequestHandler.parse_request.
  do 4 idle_step.
  split_if; [apply hoare_ret; intros s; apply Idle_Answered|].
  split_if; [| apply parse_request_words_spec].
  destruct (BaseHTTPRequestHandler.parse_version _)
    as [[base_version_number version_number]|]; [| apply refuse_parsed].
  rewrite protocol_is_http10, andb_false_r. cbn [when].
  apply hoare_seq_inv; [apply inv_ret | intros ?].
  split_if; [apply refuse_parsed|].
  idle_step. apply parse_request_words_spec.
Qed.

(** One request: whatever the request line and the files are, the handler
    returns, leaves the files alone, and has then sent nothing, or a reply
    in HTTP/0.9 style, or a reply with the injected lines. *)
Lemma handle_one_request_spec :
  hoare (Idle c w w0) CORSRequestHandler.handle_one_request
    (fun _ => (Answered c w w0)).
Proof.
  unfold CORSRequestHandler.handle_one_request,
    BaseHTTPRequestHandler.handle_one_request.
  eapply hoare_bind with (R := fun _ => (Idle c w w0)).
  { unfold BaseHTTPRequestHandler.readline.
    apply hoare_seq_inv; [apply inv_gets | intros rs].
    destruct rs; [apply inv_ret|].
    apply inv_bind; [apply inv_idle_update; reflexivity | intros ?].
    apply inv_ret. }
  intros [r|].
  - split_if.
    + do 3 idle_step.
      eapply hoare_weaken;
        [apply send_error_answers | apply Idle_Ready | auto].
    + split_if.
      * eapply hoare_weaken; [apply inv_idle_close | auto |].
        intros ? s. apply Idle_Answered.
      * eapply hoare_bind; [apply parse_request_spec | intros ok].
        destruct ok;
          [change (Parsed c w w0 true) with (Ready c w w0)
          | apply hoare_ret; auto].
        apply hoare_seq_inv.
        { apply inv_gets. }
        intros cmd. unfold CORSRequestHandler.do_, SimpleHTTPRequestHandler.do_.
        destruct (String.eqb _ "GET").
        { apply answers. intro v. apply do_GET_done. }
        destruct (String.eqb _ "HEAD").
        { apply answers. intro v. apply do_HEAD_done. }
        apply send_error_answers.
  - eapply hoare_weaken; [apply inv_idle_close | auto |].
    intros ? s. apply Idle_Answered.
Qed.

End OneRequest.

(** ** C1: the injected headers on every response *)


(** A connection is closed after its first request: [handle] is
    [handle_one_request], once; it returns, with the files as they were
    and the request answered. *)
Lemma handle_once {L : Lib} (h : Handler) :
  exists h',
    CORSRequestHandler.handle_one_request (set_close_connection true h)
    = Return tt h'
    /\ CORSRequestHandler.handle h = Return tt h'
    /\ Answered true (files h) (wfile h) h'.
Proof.
  destruct (handle_one_request_spec true (files h) (wfile h)
              (set_close_connection true h))
    as ([] & h' & E & A).
  - repeat split.
  - exists h'. split; [exact E|]. split; [| exact A].
    destruct A as (_ & C & _).
    unfold CORSRequestHandler.handle, BaseHTTPRequestHandler.handle.
    erewrite bind_eq by reflexivity. erewrite bind_eq by reflexivity.
    erewrite bind_eq by exact E.
    destruct (List.length (rfile (set_close_connection true h)));
      cbn [BaseHTTPRequestHandler.handle_loop]; [reflexivity|].
    unfold bind, gets. rewrite (C eq_refl). reflexivity.
Qed.


(** ** C8: requests read the files and leave nothing behind *)

Section Frame.

Context {L : Lib}.

(** A connection is served whatever it carries: the handler returns, the
    files are as before, and the trace gains the exchange, which depends
    on the files and on the connection only. *)
Lemma handle_request_noblock_eq (t : Z) (requests : list request)
  (p : Main.Process) :
  Main._handle_request_noblock t requests p =
  Return tt (Main.record (Main.exchange (Main.disk p) t requests) p).
Proof.
  destruct (handle_once (Main.new_handler (Main.disk p) t requests))
    as (h & _ & E & F & _).
  unfold Main._handle_request_noblock, Main.exchange, Main.session, bind,
    gets, Main.set_disk, Main.emit, modify, ret.
  rewrite E, F. destruct p; reflexivity.
Qed.

End Frame.

(** ** The process: start, serve, stop *)

Section Process.

Context {L : Lib}.

Import Main.
Local Open Scope list_scope.

Lemma record_record (a b : list action) (p : Process) :
  record b (record a p) = record (a ++ b) p.
Proof. unfold record; cbn. now rewrite <- app_assoc. Qed.

Lemma record_with_pending (a : list action) (v : list event) (p : Process) :
  record a (with_pending v p) = with_pending v (record a p).
Proof. reflexivity. Qed.

(** The loop sets [pending] before anything else: what it held does not
    matter. *)
Lemma serve_loop_with_pending (events v : list event) (p : Process) :
  serve_loop events (with_pending v p) = serve_loop events p.
Proof. destruct events as [|[t requests|] rest]; reflexivity. Qed.

(** Connections are served one by one, each on the same files. *)
Lemma serve_loop_connections (cs : list (Z * list request))
  (tail : list event) (p : Process) :
  serve_loop (connections cs ++ tail) p =
  serve_loop tail (record (exchanges (disk p) cs) p).
Proof.
  revert p. induction cs as [|[t requests] cs IH]; intro p.
  - cbn. destruct p. unfold record. cbn. now rewrite app_nil_r.
  - cbn [connections map app fst snd serve_loop].
    unfold set_pending. erewrite bind_eq by reflexivity.
    erewrite bind_eq by apply handle_request_noblock_eq.
    fold (connections cs). rewrite IH.
    rewrite record_record, record_with_pending, serve_loop_with_pending.
    reflexivity.
Qed.

(** The module body up to the accept loop, when [bind] succeeds. *)
Lemma main_bound (p : Process) :
  bind_fault p = None ->
  main p =
  try_except (serve_loop (pending p))
    (fun e => match e with
              | KeyboardInterrupt =>
                  Some (print (BaseHTTPRequestHandler.NL ++ "Server stopped.")%string ;;
                        sys_exit 0)
              | _ => None
              end)
    (record (startup ++ [SocketListen request_queue_size]) p).
Proof.
  intro B. destruct p as [a e d f evs tr]. cbn in B. subst f.
  unfold main, print, HTTPServer, serve_forever, emit, bind, try_except,
    modify, gets, record. cbn.
  repeat rewrite <- app_assoc. reflexivity.
Qed.

Lemma run_bind_fault (p : Process) (strerror : string) :
  bind_fault p = Some strerror ->
  run p =
  (record (startup ++ [SocketClose; Traceback (OSError strerror); Exit 1]) p,
   Some 1).
Proof.
  intro B. destruct p as [a e d f evs tr]. cbn in B. subst f.
  unfold run, main, print, HTTPServer, emit, bind, try_except, modify, gets,
    raise, record. cbn.
  repeat rewrite <- app_assoc. reflexivity.
Qed.

Lemma run_interrupted (p : Process) (cs : list (Z * list request))
  (later : list event) :
  bind_fault p = None ->
  pending p = connections cs ++ SIGINT :: later ->
  run p =
  (with_pending later
     (record (startup ++ [SocketListen request_queue_size]
              ++ exchanges (disk p) cs
              ++ [Stdout (BaseHTTPRequestHandler.NL ++ "Server stopped."
                          ++ BaseHTTPRequestHandler.NL)%string;
                  Exit 0]) p),
   Some 0).
Proof.
  intros B E. unfold run. rewrite (main_bound p B), E.
  unfold try_except. rewrite serve_loop_connections.
  destruct p as [a e d f evs tr].
  unfold record, with_pending. cbn.
  repeat rewrite <- app_assoc. reflexivity.
Qed.

Lemma run_serving (p : Process) (cs : list (Z * list request)) :
  bind_fault p = None ->
  pending p = connections cs ->
  run p =
  (with_pending []
     (record (startup ++ [SocketListen request_queue_size]
              ++ exchanges (disk p) cs) p),
   None).
Proof.
  intros B E. unfold run. rewrite (main_bound p B), E.
  unfold try_except. rewrite <- (app_nil_r (connections cs)).
  rewrite serve_loop_connections.
  destruct p as [a e d f evs tr].
  unfold record, with_pending. cbn.
  repeat rewrite <- app_assoc. reflexivity.
Qed.

(** Any sequence of events is a run of connections, followed by nothing
    or by an interrupt. *)
Lemma events_split (events : list event) :
  exists cs,
    events = connections cs
    \/ exists later, events = connections cs ++ SIGINT :: later.
Proof.
  induction events as [|[t requests|] rest IH].
  - exists []. now left.
  - destruct IH as (cs & [E|(later & E)]); exists ((t, requests) :: cs);
      [left | right; exists later]; cbn; now rewrite E.
  - exists []. right. now exists rest.
Qed.

End Process.

(** ** The claims on the process *)

Section ProcessClaims.

Context {L : Lib}.

Import Main.
Local Open Scope list_scope.

(** C8: serving connections, as many as come and whatever they carry,
    never raises and never ends by itself, leaves the files as they
    were, and adds to the trace, for each connection in turn, the exchange
    that the connection has on those very files: what is logged and
    replied depends on the files and on the connection itself, on no
    earlier request. *)
Theorem serving_is_read_only (p : Process) (cs : list (Z * list request)) :
  exists p',
    serve_loop (connections cs) p = Waiting p'
    /\ disk p' = disk p
    /\ trace p' = trace p ++ exchanges (disk p) cs.
Proof.
  exists (with_pending [] (record (exchanges (disk p) cs) p)).
  split; [| split; reflexivity].
  rewrite <- (app_nil_r (connections cs)), serve_loop_connections.
  reflexivity.
Qed.

Lemma stdout_app (a b : list action) :
  stdout (a ++ b) = (stdout a ++ stdout b)%string.
Proof.
  induction a as [|x a IH]; [reflexivity|].
  destruct x; cbn; rewrite ?IH, ?append_assoc; reflexivity.
Qed.

Lemma replies_app (a b : list action) :
  replies (a ++ b) = replies a ++ replies b.
Proof.
  induction a as [|x a IH]; [reflexivity|].
  destruct x; cbn; rewrite ?IH; reflexivity.
Qed.

(** Serving prints nothing: requests are logged on the error stream. *)
Lemma stdout_exchanges (w : FS.t) (cs : list (Z * list request)) :
  stdout (exchanges w cs) = ""%string.
Proof.
  induction cs as [|[t requests] cs IH]; [reflexivity|].
  cbn [exchanges flat_map fst snd]. rewrite stdout_app.
  fold (exchanges w cs). rewrite IH, append_nil_r.
  unfold exchange. rewrite stdout_app.
  induction (stderr (session w t requests)); cbn; auto.
Qed.

(** C3, as the code has it: an interrupt that arrives while the server
    serves ends the accept loop (the events after it stay unserved); all
    the process has printed by then is the banner, and it prints a line
    break followed by the line [Server stopped.], then exits with
    status 0. *)
Theorem interrupt_stops_the_server (argv : list string)
  (environ : list (string * string)) (disk : FS.t)
  (cs : list (Z * list request)) (later : list event) (tr : list action) :
  exists p',
    run (mkProcess argv environ disk None
           (connections cs ++ SIGINT :: later) tr) = (p', Some 0)
    /\ pending p' = later
    /\ trace p' =
       tr ++ startup ++ [SocketListen 5] ++ exchanges disk cs
       ++ [Stdout (BaseHTTPRequestHandler.NL ++ "Server stopped."
                   ++ BaseHTTPRequestHandler.NL)%string;
           Exit 0]
    /\ stdout (trace p') =
       (stdout tr ++ banner ++ BaseHTTPRequestHandler.NL
        ++ "Server stopped." ++ BaseHTTPRequestHandler.NL)%string.
Proof.
  rewrite (run_interrupted _ cs later) by reflexivity.
  eexists. split; [reflexivity|]. split; [reflexivity|].
  split; [reflexivity|]. cbn [trace with_pending record Main.disk].
  rewrite !stdout_app, stdout_exchanges. f_equal.
Qed.

(** C4: when [bind] fails, the [OSError] is caught nowhere: the process
    closes the socket, prints the traceback of that very error and exits
    with status 1, not 0; it has served nothing and no event was
    consumed. *)
Theorem bind_failure_is_fatal (argv : list string)
  (environ : list (string * string)) (disk : FS.t) (strerror : string)
  (events : list event) (tr : list action) :
  exists p' status,
    run (mkProcess argv environ disk (Some strerror) events tr)
    = (p', Some status)
    /\ status <> 0
    /\ trace p' =
       tr ++ startup
       ++ [SocketClose; Traceback (OSError strerror); Exit status]
    /\ replies (trace p') = replies tr
    /\ pending p' = events.
Proof.
  rewrite (run_bind_fault _ strerror) by reflexivity.
  eexists _, _. split; [reflexivity|]. split; [discriminate|].
  split; [reflexivity|]. split; [| reflexivity].
  cbn [trace record]. rewrite replies_app. cbn. now rewrite app_nil_r.
Qed.

Lemma binds_app (a b : list action) : binds (a ++ b) = binds a ++ binds b.
Proof.
  induction a as [|x a IH]; [reflexivity|].
  destruct x; cbn; rewrite ?IH; reflexivity.
Qed.

Lemma binds_exchanges (w : FS.t) (cs : list (Z * list request)) :
  binds (exchanges w cs) = [].
Proof.
  induction cs as [|[t requests] cs IH]; [reflexivity|].
  cbn [exchanges flat_map fst snd]. rewrite binds_app.
  fold (exchanges w cs). rewrite IH, app_nil_r.
  unfold exchange. rewrite binds_app.
  induction (stderr (session w t requests)); cbn; auto.
Qed.

(** What a run adds to the trace begins with the start-up actions. *)
Lemma run_trace (p : Process) :
  exists rest,
    trace (fst (run p)) = trace p ++ startup ++ rest
    /\ binds rest = []
    /\ (forall strerror, bind_fault p = Some strerror ->
        rest = [SocketClose; Traceback (OSError strerror); Exit 1]).
Proof.
  destruct (bind_fault p) as [strerror|] eqn:B.
  - rewrite (run_bind_fault p strerror B). eexists. split; [reflexivity|].
    split; [reflexivity|]. intros s E. now inversion E.
  - destruct (events_split (pending p)) as (cs & [E|(later & E)]).
    + rewrite (run_serving p cs B E). eexists. split; [reflexivity|].
      split; [| discriminate]. cbn. apply binds_exchanges.
    + rewrite (run_interrupted p cs later B E). eexists.
      split; [reflexivity|]. split; [| discriminate].
      cbn. rewrite binds_app, binds_exchanges. reflexivity.
Qed.

(** C5: whatever the arguments, the environment, the files and the
    events of the process are, the one address it binds is [localhost],
    port 8000, and the first thing it does, before the socket exists and
    so before any connection is accepted, is to print the banner with the
    URL of that address. *)
Theorem binds_localhost_8000 (p : Process) :
  binds (trace (fst (run p))) = binds (trace p) ++ [("localhost", 8000)]
  /\ (exists rest,
        trace (fst (run p)) =
        trace p
        ++ Stdout ("Starting server at http://localhost:8000"
                   ++ BaseHTTPRequestHandler.NL)%string :: rest)
  /\ port = 8000.
Proof.
  destruct (run_trace p) as (rest & E & B & _). rewrite E. split.
  - rewrite !binds_app, B. reflexivity.
  - split; [| reflexivity]. eexists. reflexivity.
Qed.

(** C9: the banner is printed before the socket is created and bound, so
    when [bind] fails the line is on the console already: what follows the
    failed [bind] is the closing of the socket, the traceback and the
    exit. *)
Theorem banner_precedes_bind (p : Process) :
  exists rest,
    trace (fst (run p)) =
    trace p
    ++ [Stdout ("Starting server at http://localhost:8000"
                ++ BaseHTTPRequestHandler.NL)%string;
        SocketCreate; SocketBind "localhost" 8000]
    ++ rest
    /\ (forall strerror, bind_fault p = Some strerror ->
        rest = [SocketClose; Traceback (OSError strerror); Exit 1]).
Proof.
  destruct (run_trace p) as (rest & E & _ & F).
  exists rest. split; [exact E | exact F].
Qed.

End ProcessClaims.

(** C3 fails on the text printed: when the server is interrupted it is a
    line break followed by the line [Server stopped.], two lines with the
    first one empty, not the line alone. *)
Lemma shutdown_prints_a_blank_line_first :
  let p := Main.mkProcess [] [] Example.disk None [Main.SIGINT] [] in
  let out := Main.stdout (Main.trace (fst (@Main.run Posix.lib p))) in
  out = Main.banner ++ BaseHTTPRequestHandler.NL ++ "Server stopped."
        ++ BaseHTTPRequestHandler.NL
  /\ out <> Main.banner ++ "Server stopped." ++ BaseHTTPRequestHandler.NL
  /\ Py.split_char Py.LF out =
     ["Starting server at http://localhost:8000"; ""; "Server stopped."; ""].
Proof.
  cbv zeta. split; [reflexivity|]. split; [| reflexivity].
  vm_compute. discriminate.
Qed.

(** ** C6: the path a request is resolved to *)




(** *** Strings cut at slashes *)









(** *** Walking down *)













(** ** C2: the status of a response, path by path *)

Section Paths.

Context {L : Lib}.

Import BaseHTTPRequestHandler.

Lemma buffered_append (line : string) (h : Handler) :
  buffered (buffer_append line h) = (buffered h ++ [line])%list.
Proof. reflexivity. Qed.

Lemma log_request_eq (code : Z) (h : Handler) :
  log_request code h =
  Return tt (set_stderr (stderr h ++ [LogRequest (requestline h) code])%list h).
Proof. reflexivity. Qed.

Lemma send_response_only_1x (code : Z) (message : option string)
  (h : Handler) :
  is_http09 h = false ->
  send_response_only code message h =
  Return tt (buffer_append (status_line code (phrase_of code message)) h).
Proof.
  intro E. unfold send_response_only, bind, gets.
  unfold is_http09 in E. rewrite E. reflexivity.
Qed.

Lemma send_response_1x (code : Z) (message : option string) (h : Handler) :
  is_http09 h = false ->
  send_response code message h =
  Return tt (sent_response code (phrase_of code message) h).
Proof.
  intro E. unfold send_response.
  erewrite bind_eq by apply log_request_eq.
  erewrite bind_eq by (apply send_response_only_1x; exact E).
  erewrite bind_eq by (apply send_header_1x; [exact E | reflexivity]).
  erewrite bind_eq by reflexivity.
  rewrite send_header_1x by (exact E || reflexivity).
  reflexivity.
Qed.

Lemma buffered_sent_response (code : Z) (phrase : string) (h : Handler) :
  buffered (sent_response code phrase h)
  = (buffered h ++ response_head h code phrase)%list.
Proof.
  unfold sent_response. rewrite !buffered_append.
  unfold response_head. now rewrite <- !app_assoc.
Qed.

Lemma buffered_set_close_connection (b : bool) (h : Handler) :
  buffered (set_close_connection b h) = buffered h.
Proof. reflexivity. Qed.

Lemma buffered_set_stderr (v : list log_entry) (h : Handler) :
  buffered (set_stderr v h) = buffered h.
Proof. reflexivity. Qed.

Lemma wfile_buffer_append (line : string) (h : Handler) :
  wfile (buffer_append line h) = wfile h.
Proof. reflexivity. Qed.

Lemma wfile_set_close_connection (b : bool) (h : Handler) :
  wfile (set_close_connection b h) = wfile h.
Proof. reflexivity. Qed.

Lemma wfile_set_stderr (v : list log_entry) (h : Handler) :
  wfile (set_stderr v h) = wfile h.
Proof. reflexivity. Qed.

Lemma wfile_sent_response (code : Z) (phrase : string) (h : Handler) :
  wfile (sent_response code phrase h) = wfile h.
Proof. reflexivity. Qed.

Lemma wfile_set_headers_buffer (v : option (list string)) (h : Handler) :
  wfile (set_headers_buffer v h) = wfile h.
Proof. reflexivity. Qed.

Lemma wfile_set_wfile (v : string) (h : Handler) : wfile (set_wfile v h) = v.
Proof. reflexivity. Qed.

(** The override in HTTP/1.x: the buffer goes out, closed by the injected
    lines and the blank line. *)
Lemma end_headers_1x (h : Handler) :
  is_http09 h = false ->
  CORSRequestHandler.end_headers h =
  Return tt
    (set_headers_buffer (Some [])
       (set_wfile (wfile h ++ response (buffered h) "") h)).
Proof.
  intro E. rewrite end_headers_eq, E.
  unfold response, header_block_of. now rewrite append_nil_r.
Qed.

Lemma response_body (lines : list string) (body : string) :
  response lines "" ++ body = response lines body.
Proof. unfold response. now rewrite append_nil_r. Qed.

End Paths.

Create Rewrite HintDb handler.

#[local] Hint Rewrite @buffered_append @buffered_sent_response
  @buffered_set_close_connection @buffered_set_stderr @wfile_buffer_append
  @wfile_set_close_connection @wfile_set_stderr @wfile_sent_response
  @wfile_set_headers_buffer @wfile_set_wfile : handler.

(** The output of an executed path against the response expected. *)
Ltac sent_ok B :=
  autorewrite with handler; rewrite B;
  rewrite ?append_assoc, ?response_body; f_equal;
  cbn [app]; rewrite <- ?app_assoc; reflexivity.

Section PathClaims.

Context {L : Lib}.

Import BaseHTTPRequestHandler SimpleHTTPRequestHandler.

Ltac run_step :=
  first [ erewrite bind_eq by reflexivity
        | erewrite bind_eq
            by (first [ apply send_response_1x
                      | apply send_header_1x
                      | apply end_headers_1x ];
                first [ eassumption | reflexivity ]) ].


Lemma send_header_close_1x (h : Handler) :
  is_http09 h = false ->
  send_header "Connection" "close" h =
  Return tt
    (set_close_connection true
       (buffer_append (header "Connection" "close") h)).
Proof.
  intro E. unfold send_header, bind, gets. unfold is_http09 in E.
  rewrite E. reflexivity.
Qed.





End PathClaims.




(** ** The server at work on the example directory *)

(** The exchange of the specification: [index.html] holds [<h1>hi</h1>],
    a [GET] of [/index.html] is answered with status 200, that body and
    the injected headers. *)
Example reply_to_get_index :
  Example.reply "GET /index.html HTTP/1.1" =
  Py.join Py.CRLF
    [ "HTTP/1.0 200 OK";
      "Server: SimpleHTTP/0.6 Python/3.11.2";
      "Date: Tue, 14 Nov 2023 22:13:20 GMT";
      "Content-type: text/html";
      "Content-Length: 11";
      "Last-Modified: Tue, 14 Nov 2023 22:13:20 GMT";
      "Access-Control-Allow-Origin: *";
      "Cache-Control: no-cache, no-store, must-revalidate";
      "Pragma: no-cache";
      "Expires: 0";
      "";
      "<h1>hi</h1>" ].
Proof. vm_compute. reflexivity. Qed.

(** [HEAD] sends the same headers and no body. *)
Example reply_to_head_index :
  Example.reply "GET /index.html HTTP/1.1" =
  Example.reply "HEAD /index.html HTTP/1.1" ++ "<h1>hi</h1>".
Proof. vm_compute. reflexivity. Qed.

(** What keeps the directory case of C2 from holding for every request:
    without its final slash a directory is redirected, an index page
    replaces the listing, and a directory that cannot be listed is not
    found. *)
Example directory_without_slash_is_redirected :
  Py.startswith (Example.reply "GET /docs HTTP/1.0")
    "HTTP/1.0 301 Moved Permanently" = true.
Proof. vm_compute. reflexivity. Qed.

Example index_page_replaces_listing :
  Py.startswith (Example.reply "GET / HTTP/1.0") "HTTP/1.0 200 OK" = true
  /\ Py.endswith (Example.reply "GET / HTTP/1.0") "<h1>hi</h1>" = true.
Proof. vm_compute. auto. Qed.

Example unlistable_directory_is_not_found :
  Py.startswith (Example.reply "GET /locked/ HTTP/1.0")
    "HTTP/1.0 404 No permission to list directory" = true.
Proof. vm_compute. reflexivity. Qed.

(** Methods other than [GET] and [HEAD] are not implemented. *)
Example post_is_not_implemented :
  Py.startswith (Example.reply "POST /index.html HTTP/1.0")
    "HTTP/1.0 501 Unsupported method ('POST')" = true.
Proof. vm_compute. reflexivity. Qed.

(** A request line rejected before its version is accepted is answered
    in HTTP/0.9 style: the error page alone. *)
Example bad_version_is_answered_without_headers :
  Py.startswith (Example.reply "GET /index.html FOO/1.0") "<!DOCTYPE HTML>"
  = true.
Proof. vm_compute. reflexivity. Qed.

(** A connection that carries two requests is closed after the first. *)
Example second_request_is_not_read :
  rfile
    (match @CORSRequestHandler.handle Posix.lib
             (Main.new_handler Example.disk Example.now
                [ Example.request_line "GET /index.html HTTP/1.1";
                  Example.request_line "GET /secret.txt HTTP/1.1" ]) with
     | Return _ h | Raise _ h | Waiting h => h
     end)
  = [ Example.request_line "GET /secret.txt HTTP/1.1" ].
Proof. vm_compute. reflexivity. Qed.

(** * Further properties of the server *)

(** ** Error responses *)

Section Errors.

Context {L : Lib}.

Import BaseHTTPRequestHandler.

Ltac run_step :=
  first [ erewrite bind_eq by reflexivity
        | erewrite bind_eq
            by (first [ apply send_response_1x
                      | apply send_header_1x
                      | apply end_headers_1x ];
                first [ eassumption | reflexivity ]) ].

(** [send_error] in HTTP/1.x, for a code that has a page: status line,
    headers, and the page unless the request is a [HEAD]; the connection is
    to be closed and the error is logged. *)
Lemma send_error_page_1x (h : Handler) (code : Z) (message : string)
  (explain : option string) :
  is_http09 h = false ->
  buffered h = [] ->
  has_page code = true ->
  exists h',
    send_error CORSRequestHandler.end_headers code (Some message) explain h
    = Return tt h'
    /\ wfile h' =
       wfile h
       ++ response (error_lines h code message (explanation code explain))
            (if is_head h then ""
             else error_page code message (explanation code explain))
    /\ close_connection h' = true
    /\ stderr h' =
       (stderr h ++ [LogError code message; LogRequest (requestline h) code])
       %list
    /\ files h' = files h
    /\ rfile h' = rfile h.
Proof.
  intros E B P. unfold send_error, explanation.
  destruct (responses code) as [[shortmsg longmsg]|].
  all: erewrite bind_eq by reflexivity.
  all: run_step.
  all: erewrite bind_eq by (apply send_header_close_1x; exact E).
  all: unfold has_page in P; rewrite P.
  all: erewrite bind_eq; [| run_step; run_step; reflexivity].
  all: run_step; run_step.
  all: match goal with
       | |- context [command ?x] => change (command x) with (command h)
       end.
  all: change (match command h with
               | Some c => String.eqb c "HEAD"
               | None => false
               end) with (is_head h).
  all: destruct (is_head h); cbn [negb andb when].
  all: try match goal with
           | |- context [String.eqb ?b ""] =>
               destruct (String.eqb b "") eqn:N;
               [apply String.eqb_eq in N|]; cbn [negb when]
           end.
  all: eexists; (split; [reflexivity|]).
  all: (split; [| split; [reflexivity | split; [| split; reflexivity]]]).
  all: try (cbn [stderr set_wfile set_headers_buffer buffer_append
                   set_close_connection sent_response set_stderr requestline];
            rewrite <- app_assoc; reflexivity).
  all: unfold error_lines, error_page, write, modify.
  all: try rewrite N.
  all: sent_ok B.
Qed.

Lemma send_response_09 (code : Z) (message : option string) (h : Handler) :
  is_http09 h = true ->
  send_response code message h =
  Return tt (set_stderr (stderr h ++ [LogRequest (requestline h) code])%list h).
Proof.
  intro E. unfold send_response.
  erewrite bind_eq by apply log_request_eq.
  erewrite bind_eq.
  2:{ unfold send_response_only, bind, gets. unfold is_http09 in E.
      cbn [request_version set_stderr]. rewrite E. reflexivity. }
  erewrite bind_eq by (apply send_header_09; [exact E | reflexivity]).
  erewrite bind_eq by reflexivity.
  rewrite send_header_09 by (exact E || reflexivity).
  reflexivity.
Qed.

Lemma send_header_close_09 (h : Handler) :
  is_http09 h = true ->
  send_header "Connection" "close" h = Return tt (set_close_connection true h).
Proof.
  intro E. unfold send_header, bind, gets. unfold is_http09 in E.
  rewrite E. reflexivity.
Qed.

Lemma end_headers_09 (h : Handler) :
  is_http09 h = true -> CORSRequestHandler.end_headers h = Return tt h.
Proof. intro E. now rewrite end_headers_eq, E. Qed.

(** [send_error] while the request version is [HTTP/0.9]: the page and
    nothing else. *)
Lemma send_error_page_09 (h : Handler) (code : Z) (message : string)
  (explain : option string) :
  is_http09 h = true ->
  has_page code = true ->
  exists h',
    send_error CORSRequestHandler.end_headers code (Some message) explain h
    = Return tt h'
    /\ wfile h' =
       wfile h
       ++ (if is_head h then ""
           else error_page code message (explanation code explain))
    /\ close_connection h' = true
    /\ stderr h' =
       (stderr h ++ [LogError code message; LogRequest (requestline h) code])
       %list
    /\ files h' = files h
    /\ rfile h' = rfile h.
Proof.
  intros E P. unfold send_error, explanation.
  destruct (responses code) as [[shortmsg longmsg]|].
  all: erewrite bind_eq by reflexivity.
  all: erewrite bind_eq by (apply send_response_09; exact E).
  all: erewrite bind_eq by (apply send_header_close_09; exact E).
  all: unfold has_page in P; rewrite P.
  all: erewrite bind_eq;
    [| erewrite bind_eq by (apply send_header_09; [exact E | reflexivity]);
       erewrite bind_eq by (apply send_header_09; [exact E | reflexivity]);
       reflexivity].
  all: erewrite bind_eq by (apply end_headers_09; exact E).
  all: erewrite bind_eq by reflexivity.
  all: match goal with
       | |- context [command ?x] => change (command x) with (command h)
       end.
  all: change (match command h with
               | Some c => String.eqb c "HEAD"
               | None => false
               end) with (is_head h).
  all: destruct (is_head h); cbn [negb andb when].
  all: try match goal with
           | |- context [String.eqb ?b ""] =>
               destruct (String.eqb b "") eqn:N;
               [apply String.eqb_eq in N|]; cbn [negb when]
           end.
  all: eexists; (split; [reflexivity|]).
  all: (split; [| split; [reflexivity | split; [| split; reflexivity]]]).
  all: try (cbn [stderr set_wfile set_close_connection set_stderr requestline];
            rewrite <- app_assoc; reflexivity).
  all: unfold error_page, write, modify.
  all: try rewrite N.
  all: cbn [wfile set_wfile set_close_connection set_stderr];
    rewrite ?append_nil_r; reflexivity.
Qed.

End Errors.

(** ** Requests, from the line read to the method called *)

Section Requests.

Context {L : Lib}.

Import BaseHTTPRequestHandler.

(** The line read is neither too long nor empty: the request is parsed,
    and the method of its command is called if it is accepted. *)
Lemma handle_one_request_read (h : Handler) (r : request)
  (rest : list request) :
  rfile h = r :: rest ->
  Z.of_nat (String.length (raw_requestline r)) <= 65536 ->
  raw_requestline r <> "" ->
  CORSRequestHandler.handle_one_request h =
  (ok <- CORSRequestHandler.parse_request r ;;
   if negb ok then ret tt
   else
     cmd <- gets command ;;
     let cmd := match cmd with Some c => c | None => "" end in
     match CORSRequestHandler.do_ cmd with
     | None =>
         CORSRequestHandler.send_error 501
           (Some ("Unsupported method (" ++ repr cmd ++ ")")) None
     | Some method => method
     end) (set_rfile rest h).
Proof.
  intros R N E.
  unfold CORSRequestHandler.handle_one_request, handle_one_request.
  erewrite bind_eq.
  2:{ unfold readline. erewrite bind_eq by reflexivity. rewrite R.
      erewrite bind_eq by reflexivity. reflexivity. }
  cbv iota beta.
  replace (65536 <? Z.of_nat (String.length (raw_requestline r)))
    with false by (symmetry; apply Z.ltb_ge; exact N).
  apply String.eqb_neq in E. rewrite E. reflexivity.
Qed.

(** A request line of three words with a version below 2.0, followed by
    a header block that parses, is accepted. *)
Lemma parse_request_accepts (h : Handler) (r : request)
  (command path version base : string) (number : Z * Z)
  (hs : list (string * string)) :
  Py.split (line_of r) = [command; path; version] ->
  parse_version version = Some (base, number) ->
  version_ge number (2, 0) = false ->
  header_lines r = Headers hs ->
  CORSRequestHandler.parse_request r h =
  Return true (accepted r command path version hs h).
Proof.
  intros W V G H.
  unfold CORSRequestHandler.parse_request, parse_request.
  do 4 (erewrite bind_eq by reflexivity).
  unfold line_of in W. rewrite W.
  cbn [List.length Nat.eqb Nat.leb last]. rewrite V.
  rewrite protocol_is_http10, andb_false_r. cbn [when].
  erewrite bind_eq by reflexivity. rewrite G.
  erewrite bind_eq by reflexivity.
  unfold parse_request_words.
  cbn [List.length Nat.eqb Nat.leb andb negb nth].
  erewrite bind_eq by reflexivity. cbn [negb].
  do 2 (erewrite bind_eq by reflexivity).
  erewrite bind_eq.
  2:{ instantiate (1 := set_path (stored_path path) _).
      unfold stored_path. destruct (Py.startswith path "//"); reflexivity. }
  unfold parse_request_headers. rewrite H.
  erewrite bind_eq by reflexivity.
  erewrite bind_eq.
  2:{ instantiate (1 := set_close_connection true _).
      destruct (String.eqb _ "close"); [reflexivity|].
      rewrite protocol_is_http10, andb_false_r. reflexivity. }
  erewrite bind_eq by reflexivity.
  rewrite protocol_is_http10, andb_false_r. cbn [andb].
  reflexivity.
Qed.

(** A line that splits into words is not empty. *)
Lemma split_words_not_empty (r : request) (word : string)
  (words : list string) :
  Py.split (line_of r) = word :: words -> raw_requestline r <> "".
Proof.
  intros W E. unfold line_of in W. rewrite E in W. discriminate W.
Qed.

Lemma not_http09 (h : Handler) :
  request_version h <> "HTTP/0.9" -> is_http09 h = false.
Proof. intro N. now apply String.eqb_neq. Qed.

(** X1: a request with a method other than [GET] and [HEAD] ([OPTIONS],
    [POST], ...), well formed otherwise, is answered with status 501 and
    the error page, under the injected headers; the request is logged and
    the connection is to be closed. *)
Theorem other_methods_are_not_implemented (h : Handler) (r : request)
  (rest : list request) (cmd path version base : string)
  (number : Z * Z) (hs : list (string * string)) :
  rfile h = r :: rest ->
  buffered h = [] ->
  Z.of_nat (String.length (raw_requestline r)) <= 65536 ->
  Py.split (line_of r) = [cmd; path; version] ->
  parse_version version = Some (base, number) ->
  version_ge number (2, 0) = false ->
  version <> "HTTP/0.9" ->
  header_lines r = Headers hs ->
  cmd <> "GET" ->
  cmd <> "HEAD" ->
  let message := "Unsupported method (" ++ repr cmd ++ ")" in
  exists h',
    CORSRequestHandler.handle_one_request h = Return tt h'
    /\ wfile h' =
       wfile h
       ++ response (error_lines h 501 message (explanation 501 None))
            (error_page 501 message (explanation 501 None))
    /\ stderr h' =
       (stderr h ++ [LogError 501 message; LogRequest (line_of r) 501])%list
    /\ close_connection h' = true
    /\ rfile h' = rest.
Proof.
  intros R B N W V G V9 H CG CH message.
  rewrite (handle_one_request_read h r rest R N
             (split_words_not_empty r _ _ W)).
  erewrite bind_eq by (eapply parse_request_accepts; eassumption).
  cbn [negb]. erewrite bind_eq by reflexivity.
  cbn [command accepted].
  unfold CORSRequestHandler.do_, SimpleHTTPRequestHandler.do_.
  apply String.eqb_neq in CG, CH. rewrite CG, CH.
  destruct (send_error_page_1x
              (accepted r cmd path version hs (set_rfile rest h))
              501 message None)
    as (h' & E' & W' & C' & S' & _ & R');
    [now apply not_http09 | exact B | reflexivity |].
  exists h'. split; [exact E'|].
  unfold is_head in W'. cbn [command accepted] in W'. rewrite CH in W'.
  repeat split; assumption.
Qed.

(** The request is parsed and refused: the handler is done. *)
Lemma handle_one_request_refused (h h' : Handler) (r : request)
  (rest : list request) :
  rfile h = r :: rest ->
  Z.of_nat (String.length (raw_requestline r)) <= 65536 ->
  raw_requestline r <> "" ->
  CORSRequestHandler.parse_request r (set_rfile rest h) = Return false h' ->
  CORSRequestHandler.handle_one_request h = Return tt h'.
Proof.
  intros R N E P. rewrite (handle_one_request_read h r rest R N E).
  erewrite bind_eq by exact P. reflexivity.
Qed.

(** An error found before the version of the request is accepted: the
    page goes out in HTTP/0.9 style. *)
Lemma refuse_09 (h : Handler) (code : Z) (message : string) :
  is_http09 h = true ->
  is_head h = false ->
  has_page code = true ->
  exists h',
    (send_error CORSRequestHandler.end_headers code (Some message) None ;;
     ret false) h = Return false h'
    /\ wfile h' = wfile h ++ error_page code message (explanation code None)
    /\ stderr h' =
       (stderr h ++ [LogError code message; LogRequest (requestline h) code])
       %list
    /\ close_connection h' = true
    /\ rfile h' = rfile h.
Proof.
  intros E H P.
  destruct (send_error_page_09 h code message None E P)
    as (h' & E' & W' & C' & S' & _ & R').
  exists h'. rewrite H in W'. erewrite bind_eq by exact E'.
  repeat split; assumption.
Qed.

(** X2: a request line refused before its version is accepted is
    answered in HTTP/0.9 style, with the error page alone, no status line
    and no header: a last word that is not a version ([400]), a version 2.0
    or later ([505]), a single word ([400]), two words the first of which
    is not [GET] ([400]). *)
Theorem refused_request_lines_get_bare_pages (h : Handler) (r : request)
  (rest : list request) :
  rfile h = r :: rest ->
  Z.of_nat (String.length (raw_requestline r)) <= 65536 ->
  (forall words,
      Py.split (line_of r) = words ->
      (3 <= List.length words)%nat ->
      parse_version (last words "") = None ->
      bare_error_reply h r rest 400
        ("Bad request version (" ++ repr (last words "") ++ ")"))
  /\ (forall words base number,
         Py.split (line_of r) = words ->
         (3 <= List.length words)%nat ->
         parse_version (last words "") = Some (base, number) ->
         version_ge number (2, 0) = true ->
         bare_error_reply h r rest 505
           ("Invalid HTTP version (" ++ base ++ ")"))
  /\ (forall word,
         Py.split (line_of r) = [word] ->
         bare_error_reply h r rest 400
           ("Bad request syntax (" ++ repr (line_of r) ++ ")"))
  /\ (forall cmd path,
         Py.split (line_of r) = [cmd; path] ->
         cmd <> "GET" ->
         bare_error_reply h r rest 400
           ("Bad HTTP/0.9 request type (" ++ repr cmd ++ ")")).
Proof.
  intros R N. repeat split.
  - intros words W n V.
    destruct words as [|w1 [|w2 [|w3 ws]]]; try (cbn in n; lia).
    pose (h0 := set_requestline (line_of r)
                  (set_close_connection true
                     (set_request_version default_request_version
                        (set_command None (set_rfile rest h))))).
    destruct (refuse_09 h0 400
                ("Bad request version ("
                 ++ repr (last (w1 :: w2 :: w3 :: ws) "") ++ ")"))
      as (h' & E' & W' & S' & C' & R'); try reflexivity.
    exists h'. split; [| repeat split; assumption].
    apply (handle_one_request_refused h h' r rest R N
             (split_words_not_empty r _ _ W)).
    rewrite <- E'.
    unfold CORSRequestHandler.parse_request, parse_request.
    do 4 (erewrite bind_eq by reflexivity).
    unfold line_of in W. rewrite W.
    cbn [List.length Nat.eqb Nat.leb]. rewrite V. reflexivity.
  - intros words base number W n V G.
    destruct words as [|w1 [|w2 [|w3 ws]]]; try (cbn in n; lia).
    pose (h0 := set_requestline (line_of r)
                  (set_close_connection true
                     (set_request_version default_request_version
                        (set_command None (set_rfile rest h))))).
    destruct (refuse_09 h0 505 ("Invalid HTTP version (" ++ base ++ ")"))
      as (h' & E' & W' & S' & C' & R'); try reflexivity.
    exists h'. split; [| repeat split; assumption].
    apply (handle_one_request_refused h h' r rest R N
             (split_words_not_empty r _ _ W)).
    rewrite <- E'.
    unfold CORSRequestHandler.parse_request, parse_request.
    do 4 (erewrite bind_eq by reflexivity).
    unfold line_of in W. rewrite W.
    cbn [List.length Nat.eqb Nat.leb]. rewrite V.
    rewrite protocol_is_http10, andb_false_r. cbn [when].
    erewrite bind_eq by reflexivity. rewrite G. reflexivity.
  - intros word W.
    pose (h0 := set_requestline (line_of r)
                  (set_close_connection true
                     (set_request_version default_request_version
                        (set_command None (set_rfile rest h))))).
    destruct (refuse_09 h0 400
                ("Bad request syntax (" ++ repr (line_of r) ++ ")"))
      as (h' & E' & W' & S' & C' & R'); try reflexivity.
    exists h'. split; [| repeat split; assumption].
    apply (handle_one_request_refused h h' r rest R N
             (split_words_not_empty r _ _ W)).
    rewrite <- E'.
    unfold CORSRequestHandler.parse_request, parse_request.
    do 4 (erewrite bind_eq by reflexivity).
    unfold line_of in W. rewrite W. reflexivity.
  - intros cmd path W G.
    pose (h0 := set_close_connection true
                  (set_requestline (line_of r)
                     (set_close_connection true
                        (set_request_version default_request_version
                           (set_command None (set_rfile rest h)))))).
    destruct (refuse_09 h0 400
                ("Bad HTTP/0.9 request type (" ++ repr cmd ++ ")"))
      as (h' & E' & W' & S' & C' & R'); try reflexivity.
    exists h'. split; [| repeat split; assumption].
    apply (handle_one_request_refused h h' r rest R N
             (split_words_not_empty r _ _ W)).
    unfold CORSRequestHandler.parse_request, parse_request.
    do 4 (erewrite bind_eq by reflexivity).
    unfold line_of in W. rewrite W.
    cbn [List.length Nat.eqb Nat.leb]. unfold parse_request_words.
    cbn [List.length Nat.eqb Nat.leb andb negb nth].
    apply String.eqb_neq in G.
    erewrite bind_eq.
    2:{ erewrite bind_eq by reflexivity. rewrite G. cbn [negb]. exact E'. }
    reflexivity.
Qed.

End Requests.

Lemma other_methods_are_not_implemented_witness :
  exists h',
    @CORSRequestHandler.handle_one_request Posix.lib
      (Main.new_handler Example.disk Example.now
         [Example.request_line "OPTIONS /index.html HTTP/1.1"])
    = Return tt h'
    /\ Py.startswith (wfile h') "HTTP/1.0 501 Unsupported method ('OPTIONS')"
       = true
    /\ String.index 0 "Access-Control-Allow-Origin: *" (wfile h') <> None
    /\ close_connection h' = true.
Proof.
  destruct (@other_methods_are_not_implemented Posix.lib
              (Main.new_handler Example.disk Example.now
                 [Example.request_line "OPTIONS /index.html HTTP/1.1"])
              (Example.request_line "OPTIONS /index.html HTTP/1.1") []
              "OPTIONS" "/index.html" "HTTP/1.1" "1.1" (1, 1) [])
    as (h' & E & W & S & C & R);
    try reflexivity; try discriminate.
  exists h'. split; [exact E|]. rewrite W.
  split; [reflexivity|]. split; [vm_compute; discriminate | exact C].
Defined.


Lemma refused_request_lines_get_bare_pages_witness :
  (let r := Example.request_line "GET /index.html FOO/1.0" in
   @bare_error_reply Posix.lib
     (Main.new_handler Example.disk Example.now [r]) r [] 400
     "Bad request version ('FOO/1.0')")
  /\ (let r := Example.request_line "GET /index.html HTTP/2.0" in
      @bare_error_reply Posix.lib
        (Main.new_handler Example.disk Example.now [r]) r [] 505
        "Invalid HTTP version (2.0)")
  /\ (let r := Example.request_line "GET" in
      @bare_error_reply Posix.lib
        (Main.new_handler Example.disk Example.now [r]) r [] 400
        "Bad request syntax ('GET')")
  /\ (let r := Example.request_line "HEAD /index.html" in
      @bare_error_reply Posix.lib
        (Main.new_handler Example.disk Example.now [r]) r [] 400
        "Bad HTTP/0.9 request type ('HEAD')").
Proof.
  repeat split.
  - pose (r := Example.request_line "GET /index.html FOO/1.0").
    destruct (@refused_request_lines_get_bare_pages Posix.lib
                (Main.new_handler Example.disk Example.now [r]) r []
                eq_refl) as (A & _); [vm_compute; discriminate|].
    apply (A ["GET"; "/index.html"; "FOO/1.0"]);
      [reflexivity | cbn; lia | reflexivity].
  - pose (r := Example.request_line "GET /index.html HTTP/2.0").
    destruct (@refused_request_lines_get_bare_pages Posix.lib
                (Main.new_handler Example.disk Example.now [r]) r []
                eq_refl) as (_ & A & _); [vm_compute; discriminate|].
    apply (A ["GET"; "/index.html"; "HTTP/2.0"] "2.0" (2, 0));
      [reflexivity | cbn; lia | reflexivity | reflexivity].
  - pose (r := Example.request_line "GET").
    destruct (@refused_request_lines_get_bare_pages Posix.lib
                (Main.new_handler Example.disk Example.now [r]) r []
                eq_refl) as (_ & _ & A & _); [vm_compute; discriminate|].
    apply (A "GET"). reflexivity.
  - pose (r := Example.request_line "HEAD /index.html").
    destruct (@refused_request_lines_get_bare_pages Posix.lib
                (Main.new_handler Example.disk Example.now [r]) r []
                eq_refl) as (_ & _ & _ & A); [vm_compute; discriminate|].
    apply (A "HEAD" "/index.html"); [reflexivity | discriminate].
Defined.

(** ** Requests that are not parsed to the end *)

Section Edges.

Context {L : Lib}.

Import BaseHTTPRequestHandler.

(** X3: when the client sends nothing (the connection is at its end, or
    the line read is empty or blank), the handler sends nothing and logs
    nothing; the connection is to be closed. *)
Theorem nothing_to_read_is_not_answered (h : Handler) :
  (rfile h = []
   \/ exists r rest,
        rfile h = r :: rest
        /\ Z.of_nat (String.length (raw_requestline r)) <= 65536
        /\ Py.split (line_of r) = []) ->
  exists h',
    CORSRequestHandler.handle_one_request h = Return tt h'
    /\ wfile h' = wfile h
    /\ stderr h' = stderr h
    /\ close_connection h' = true
    /\ rfile h' = tl (rfile h).
Proof.
  intros [R|(r & rest & R & N & W)].
  - unfold CORSRequestHandler.handle_one_request, handle_one_request.
    erewrite bind_eq.
    2:{ unfold readline. erewrite bind_eq by reflexivity. rewrite R.
        reflexivity. }
    eexists. split; [reflexivity|].
      repeat split; try reflexivity; cbn; rewrite R; reflexivity.
  - destruct (String.eqb (raw_requestline r) "") eqn:E.
    + unfold CORSRequestHandler.handle_one_request, handle_one_request.
      erewrite bind_eq.
      2:{ unfold readline. erewrite bind_eq by reflexivity. rewrite R.
          erewrite bind_eq by reflexivity. reflexivity. }
      cbv iota beta.
      replace (65536 <? Z.of_nat (String.length (raw_requestline r)))
        with false by (symmetry; apply Z.ltb_ge; exact N).
      rewrite E. eexists. split; [reflexivity|].
      repeat split; try reflexivity; cbn; rewrite R; reflexivity.
    + apply String.eqb_neq in E.
      rewrite (handle_one_request_read h r rest R N E).
      erewrite bind_eq.
      2:{ unfold CORSRequestHandler.parse_request, parse_request.
          do 4 (erewrite bind_eq by reflexivity).
          unfold line_of in W. rewrite W. reflexivity. }
      eexists. split; [reflexivity|].
      repeat split; try reflexivity; cbn; rewrite R; reflexivity.
Qed.

(** Without a message, [send_error] takes the phrase of the code. *)
Lemma send_error_default (code : Z) (shortmsg longmsg : string) :
  responses code = Some (shortmsg, longmsg) ->
  send_error CORSRequestHandler.end_headers code None None =
  send_error CORSRequestHandler.end_headers code (Some shortmsg) None.
Proof. intro R. unfold send_error. rewrite R. reflexivity. Qed.

(** X4: a request line of more than 65536 bytes is not parsed: it is
    answered with status 414 and the error page, under the injected
    headers, and logged with an empty request line. *)
Theorem long_request_line_is_414 (h : Handler) (r : request)
  (rest : list request) :
  rfile h = r :: rest ->
  buffered h = [] ->
  65536 < Z.of_nat (String.length (raw_requestline r)) ->
  exists h',
    CORSRequestHandler.handle_one_request h = Return tt h'
    /\ wfile h' =
       wfile h
       ++ response
            (error_lines h 414 "Request-URI Too Long" (explanation 414 None))
            (error_page 414 "Request-URI Too Long" (explanation 414 None))
    /\ stderr h' =
       (stderr h
        ++ [LogError 414 "Request-URI Too Long"; LogRequest "" 414])%list
    /\ close_connection h' = true
    /\ rfile h' = rest.
Proof.
  intros R B N.
  pose (h0 := set_command (Some "")
                (set_request_version ""
                   (set_requestline "" (set_rfile rest h)))).
  destruct (send_error_page_1x h0 414 "Request-URI Too Long" None)
    as (h' & E' & W' & C' & S' & _ & R');
    [reflexivity | exact B | reflexivity |].
  exists h'. split; [| repeat split; assumption].
  unfold CORSRequestHandler.handle_one_request, handle_one_request.
  erewrite bind_eq.
  2:{ unfold readline. erewrite bind_eq by reflexivity. rewrite R.
      erewrite bind_eq by reflexivity. reflexivity. }
  cbv iota beta. apply Z.ltb_lt in N. rewrite N.
  do 3 (erewrite bind_eq by reflexivity).
  rewrite (send_error_default 414 "Request-URI Too Long"
             "URI is too long" eq_refl).
  exact E'.
Qed.

(** A request line of three words with a version below 2.0: what is left
    of [parse_request] is the header block. *)
Lemma parse_request_to_headers (h : Handler) (r : request)
  (cmd path version base : string) (number : Z * Z) :
  Py.split (line_of r) = [cmd; path; version] ->
  parse_version version = Some (base, number) ->
  version_ge number (2, 0) = false ->
  CORSRequestHandler.parse_request r h =
  parse_request_headers CORSRequestHandler.end_headers r
    (accepted r cmd path version (headers h) h).
Proof.
  intros W V G.
  unfold CORSRequestHandler.parse_request, parse_request.
  do 4 (erewrite bind_eq by reflexivity).
  unfold line_of in W. rewrite W.
  cbn [List.length Nat.eqb Nat.leb last]. rewrite V.
  rewrite protocol_is_http10, andb_false_r. cbn [when].
  erewrite bind_eq by reflexivity. rewrite G.
  erewrite bind_eq by reflexivity.
  unfold parse_request_words.
  cbn [List.length Nat.eqb Nat.leb andb negb nth].
  erewrite bind_eq by reflexivity. cbn [negb].
  do 2 (erewrite bind_eq by reflexivity).
  erewrite bind_eq.
  2:{ instantiate (1 := set_path (stored_path path) _).
      unfold stored_path. destruct (Py.startswith path "//"); reflexivity. }
  reflexivity.
Qed.

(** X5: a header block that [http.client] refuses (a line too long, too
    many headers) after a well formed request line: status 431 with the
    reason of the refusal as explanation, under the injected headers, and
    without the page when the request is a [HEAD]. *)
Theorem refused_headers_are_431 (h : Handler) (r : request)
  (rest : list request) (cmd path version base : string) (number : Z * Z)
  (err : string) :
  rfile h = r :: rest ->
  buffered h = [] ->
  Z.of_nat (String.length (raw_requestline r)) <= 65536 ->
  Py.split (line_of r) = [cmd; path; version] ->
  parse_version version = Some (base, number) ->
  version_ge number (2, 0) = false ->
  version <> "HTTP/0.9" ->
  forall message,
    (header_lines r = LineTooLong err /\ message = "Line too long")
    \/ (header_lines r = HTTPException err /\ message = "Too many headers") ->
    exists h',
      CORSRequestHandler.handle_one_request h = Return tt h'
      /\ wfile h' =
         wfile h
         ++ response (error_lines h 431 message err)
              (if String.eqb cmd "HEAD" then ""
               else error_page 431 message err)
      /\ stderr h' =
         (stderr h ++ [LogError 431 message; LogRequest (line_of r) 431])%list
      /\ close_connection h' = true
      /\ rfile h' = rest.
Proof.
  intros R B N W V G V9 message H.
  pose (h0 := accepted r cmd path version (headers (set_rfile rest h))
                (set_rfile rest h)).
  destruct (send_error_page_1x h0 431 message (Some err))
    as (h' & E' & W' & C' & S' & _ & R');
    [now apply not_http09 | exact B | reflexivity |].
  exists h'. split; [| repeat split; assumption].
  apply (handle_one_request_refused h h' r rest R N
           (split_words_not_empty r _ _ W)).
  rewrite (parse_request_to_headers _ r cmd path version base number W V G).
  unfold parse_request_headers.
  destruct H as [[H ->]|[H ->]]; rewrite H;
    erewrite bind_eq by exact E'; reflexivity.
Qed.

End Edges.

Lemma nothing_to_read_is_not_answered_witness :
  exists h',
    @CORSRequestHandler.handle_one_request Posix.lib
      (Main.new_handler Example.disk Example.now [Example.request_line "  "])
    = Return tt h'
    /\ wfile h' = ""
    /\ stderr h' = []
    /\ close_connection h' = true.
Proof.
  destruct (@nothing_to_read_is_not_answered Posix.lib
              (Main.new_handler Example.disk Example.now
                 [Example.request_line "  "]))
    as (h' & E & W & S & C & _).
  - right. exists (Example.request_line "  "), [].
    split; [reflexivity|]. split; [vm_compute; discriminate | reflexivity].
  - exists h'. repeat split; assumption.
Defined.

Lemma refused_headers_are_431_witness :
  let r := {| raw_requestline := "GET /index.html HTTP/1.1" ++ Py.CRLF;
              header_lines := LineTooLong "header line" |} in
  exists h',
    @CORSRequestHandler.handle_one_request Posix.lib
      (Main.new_handler Example.disk Example.now [r]) = Return tt h'
    /\ Py.startswith (wfile h') "HTTP/1.0 431 Line too long" = true
    /\ close_connection h' = true.
Proof.
  intro r.
  destruct (@refused_headers_are_431 Posix.lib
              (Main.new_handler Example.disk Example.now [r]) r []
              "GET" "/index.html" "HTTP/1.1" "1.1" (1, 1) "header line")
    with (message := "Line too long")
    as (h' & E & W & S & C & _);
    try reflexivity; try discriminate; [left; split; reflexivity|].
  exists h'. split; [exact E|]. rewrite W. split; [reflexivity | exact C].
Defined.
Lemma long_request_line_is_414_witness :
  let long := Nat.iter 17 (fun s => s ++ s) "a" in
  exists h',
    @CORSRequestHandler.handle_one_request Posix.lib
      (Main.new_handler Example.disk Example.now [Example.request_line long])
    = Return tt h'
    /\ Py.startswith (wfile h') "HTTP/1.0 414 Request-URI Too Long" = true
    /\ close_connection h' = true.
Proof.
  intro long.
  destruct (@long_request_line_is_414 Posix.lib
              (Main.new_handler Example.disk Example.now
                 [Example.request_line long])
              (Example.request_line long) [])
    as (h' & E & W & S & C & _);
    [reflexivity | reflexivity | vm_compute; reflexivity |].
  exists h'. split; [exact E|]. rewrite W. split; [reflexivity | exact C].
Defined.


(** ** Directories, index pages and files that have not changed *)

(** A step of a handler method in HTTP/1.x. *)
Ltac step_1x :=
  first [ erewrite bind_eq by reflexivity
        | erewrite bind_eq
            by (first [ apply send_response_1x
                      | apply send_header_1x
                      | apply end_headers_1x ];
                first [ eassumption | reflexivity ]) ].

Section Directories.

Context {L : Lib}.

Import BaseHTTPRequestHandler SimpleHTTPRequestHandler.

(** [send_head] on a path that is not a directory. *)
Lemma send_head_not_directory (h : Handler) :
  FS.isdir (files h) (target h) = false ->
  CORSRequestHandler.send_head h =
  send_head_file CORSRequestHandler.end_headers (target h) h.
Proof.
  intro D. unfold CORSRequestHandler.send_head, send_head.
  do 3 step_1x.
  change (translate_path (directory h) (self_path h)) with (target h).
  now rewrite D.
Qed.


(** X6: a directory asked for without its final slash is not listed: the
    reply is a redirection (status 301) to the same target with the slash
    added, without a body, under the injected headers. *)
Theorem directory_without_slash_is_redirected_to_slash (h : Handler) :
  is_http09 h = false ->
  buffered h = [] ->
  FS.isdir (files h) (target h) = true ->
  Py.endswith (url_path h) "/" = false ->
  exists h',
    CORSRequestHandler.do_GET h = Return tt h'
    /\ wfile h' =
       wfile h
       ++ response
            (response_head h 301 "Moved Permanently"
             ++ [ header "Location" (location h);
                  header "Content-Length" "0" ]) "".
Proof.
  intros E B D S. unfold url_path in S. unfold location.
  destruct (urlsplit (path h))
    as [[[[scheme netloc] ppath] query] fragment] eqn:U.
  unfold CORSRequestHandler.do_GET, do_GET.
  erewrite bind_eq.
  2:{ unfold send_head. do 3 step_1x.
      change (translate_path (directory h) (self_path h)) with (target h).
      rewrite D. unfold self_path. rewrite U, S. cbn [negb].
      do 4 step_1x. reflexivity. }
  eexists. split; [reflexivity|]. sent_ok B.
Qed.




(** X9: a file that is not newer than the date of [If-Modified-Since]
    (in a request without [If-None-Match]) is not sent again: status 304,
    no [Content-Length], no body, the injected headers still there. *)
Theorem unchanged_file_is_304 (h : Handler) (st_mtime : Z) (data : string) :
  is_http09 h = false ->
  buffered h = [] ->
  FS.stat (files h) (target h) = Some (FS.File true st_mtime data) ->
  Py.endswith (target h) "/" = false ->
  not_modified (headers h) st_mtime = true ->
  exists h',
    CORSRequestHandler.do_GET h = Return tt h'
    /\ wfile h' = wfile h ++ response (response_head h 304 "Not Modified") "".
Proof.
  intros E B T S M.
  unfold CORSRequestHandler.do_GET, do_GET.
  erewrite bind_eq.
  2:{ change (send_head CORSRequestHandler.end_headers)
        with CORSRequestHandler.send_head.
      rewrite send_head_not_directory by (unfold FS.isdir; now rewrite T).
      unfold send_head_file. rewrite S. step_1x.
      unfold FS.open_rb. rewrite T. step_1x. rewrite M.
      do 2 step_1x. reflexivity. }
  eexists. split; [reflexivity|]. sent_ok B.
Qed.

(** X10: a path with a final slash that is not a directory (a regular
    file asked for with a slash after its name) is answered with status
    404, whether the file exists or not. *)
Theorem file_with_final_slash_is_404 (h : Handler) :
  is_http09 h = false ->
  buffered h = [] ->
  FS.isdir (files h) (target h) = false ->
  Py.endswith (target h) "/" = true ->
  exists h',
    CORSRequestHandler.do_GET h = Return tt h'
    /\ wfile h' =
       wfile h
       ++ response
            (error_lines h 404 "File not found" (explanation 404 None))
            (if is_head h then ""
             else error_page 404 "File not found" (explanation 404 None)).
Proof.
  intros E B D S.
  destruct (send_error_page_1x h 404 "File not found" None E B eq_refl)
    as (h1 & E1 & W1 & _).
  exists h1. split; [| exact W1].
  unfold CORSRequestHandler.do_GET, do_GET.
  erewrite bind_eq.
  2:{ change (send_head CORSRequestHandler.end_headers)
        with CORSRequestHandler.send_head.
      rewrite (send_head_not_directory h D).
      unfold send_head_file. rewrite S.
      erewrite bind_eq by exact E1. reflexivity. }
  reflexivity.
Qed.

End Directories.

Lemma directory_without_slash_is_redirected_to_slash_witness :
  exists h',
    @CORSRequestHandler.do_GET Posix.lib
      (Example.parsed_request "GET /docs?x=1 HTTP/1.0") = Return tt h'
    /\ Py.startswith (wfile h') "HTTP/1.0 301 Moved Permanently" = true
    /\ String.index 0 ("Location: /docs/?x=1" ++ Py.CRLF) (wfile h') <> None.
Proof.
  destruct (@directory_without_slash_is_redirected_to_slash Posix.lib
              (Example.parsed_request "GET /docs?x=1 HTTP/1.0"))
    as (h' & E & W); try reflexivity.
  exists h'. split; [exact E|]. rewrite W.
  split; [reflexivity | vm_compute; discriminate].
Defined.



Lemma unchanged_file_is_304_witness :
  let h :=
    set_headers [("If-Modified-Since", "Tue, 14 Nov 2023 22:13:20 GMT")]
      (Example.parsed_request "GET /index.html HTTP/1.0") in
  exists h',
    @CORSRequestHandler.do_GET Posix.lib h = Return tt h'
    /\ Py.startswith (wfile h') "HTTP/1.0 304 Not Modified" = true
    /\ Py.endswith (wfile h') ("Expires: 0" ++ Py.CRLF ++ Py.CRLF) = true.
Proof.
  intro h.
  destruct (@unchanged_file_is_304 Posix.lib h Example.now "<h1>hi</h1>")
    as (h' & E & W); try reflexivity.
  exists h'. split; [exact E|]. rewrite W. split; reflexivity.
Defined.

Lemma file_with_final_slash_is_404_witness :
  exists h',
    @CORSRequestHandler.do_GET Posix.lib
      (Example.parsed_request "GET /index.html/ HTTP/1.0") = Return tt h'
    /\ Py.startswith (wfile h') "HTTP/1.0 404 File not found" = true.
Proof.
  destruct (@file_with_final_slash_is_404 Posix.lib
              (Example.parsed_request "GET /index.html/ HTTP/1.0"))
    as (h' & E & W); try reflexivity.
  exists h'. split; [exact E|]. rewrite W. reflexivity.
Defined.

(** ** The process as a whole *)

Section Runs.

Context {L : Lib}.

Import Main.
Local Open Scope list_scope.

Lemma interrupted_connections (cs : list (Z * list request)) :
  interrupted (connections cs) = false.
Proof. induction cs as [|c cs IH]; [reflexivity | exact IH]. Qed.

Lemma interrupted_then (cs : list (Z * list request)) (later : list event) :
  interrupted (connections cs ++ SIGINT :: later) = true.
Proof. induction cs as [|c cs IH]; [reflexivity | exact IH]. Qed.




Lemma closes_app (a b : list action) :
  closes (a ++ b) = closes a || closes b.
Proof. unfold closes. apply existsb_app. Qed.

Lemma closes_exchanges (w : FS.t) (cs : list (Z * list request)) :
  closes (exchanges w cs) = false.
Proof.
  induction cs as [|[t requests] cs IH]; [reflexivity|].
  cbn [exchanges flat_map fst snd]. rewrite closes_app.
  fold (exchanges w cs). rewrite IH, orb_false_r.
  unfold exchange. rewrite closes_app.
  induction (stderr (session w t requests)); cbn; auto.
Qed.

(** X11: the exit status of the process: 1 when [bind] fails, 0 when an
    interrupt arrives while it serves, none (the process keeps waiting for
    connections) in every other case: no request makes the server exit. *)
Theorem exit_status_of_a_run (p : Process) :
  snd (run p) =
  match bind_fault p with
  | Some _ => Some 1
  | None => if interrupted (pending p) then Some 0 else None
  end.
Proof.
  destruct (bind_fault p) as [strerror|] eqn:B.
  - now rewrite (run_bind_fault p strerror B).
  - destruct (events_split (pending p)) as (cs & [E|(later & E)]).
    + rewrite (run_serving p cs B E), E, interrupted_connections.
      reflexivity.
    + rewrite (run_interrupted p cs later B E), E, interrupted_then.
      reflexivity.
Qed.

(** X12: all that a run writes to standard output is the banner and,
    when the server is interrupted, an empty line and [Server stopped.];
    serving requests prints nothing there, whatever the requests are. *)
Theorem console_output_of_a_run (p : Process) :
  stdout (trace (fst (run p))) =
  (stdout (trace p) ++ banner
   ++ match bind_fault p with
      | Some _ => ""
      | None =>
          if interrupted (pending p)
          then BaseHTTPRequestHandler.NL ++ "Server stopped."
               ++ BaseHTTPRequestHandler.NL
          else ""
      end)%string.
Proof.
  destruct (bind_fault p) as [strerror|] eqn:B.
  - rewrite (run_bind_fault p strerror B). cbn [fst trace record].
    rewrite stdout_app. reflexivity.
  - destruct (events_split (pending p)) as (cs & [E|(later & E)]).
    + rewrite (run_serving p cs B E), E, interrupted_connections.
      cbn [fst trace record with_pending]. rewrite !stdout_app.
      rewrite stdout_exchanges. reflexivity.
    + rewrite (run_interrupted p cs later B E), E, interrupted_then.
      cbn [fst trace record with_pending]. rewrite !stdout_app.
      rewrite stdout_exchanges. reflexivity.
Qed.


(** X14: the program closes the listening socket itself only when [bind]
    fails ([TCPServer.__init__] calls [server_close] before raising
    again); interrupted, it exits without a call of [server_close]. *)
Theorem socket_is_closed_by_the_program_only_on_bind_failure (p : Process) :
  exists added,
    trace (fst (run p)) = trace p ++ added
    /\ closes added =
       match bind_fault p with
       | Some _ => true
       | None => false
       end.
Proof.
  destruct (bind_fault p) as [strerror|] eqn:B.
  - rewrite (run_bind_fault p strerror B). eexists. split; reflexivity.
  - destruct (events_split (pending p)) as (cs & [E|(later & E)]).
    + rewrite (run_serving p cs B E). eexists. split; [reflexivity|].
      rewrite !closes_app, closes_exchanges. reflexivity.
    + rewrite (run_interrupted p cs later B E). eexists.
      split; [reflexivity|].
      rewrite !closes_app, closes_exchanges. reflexivity.
Qed.

End Runs.
